(** * Hazard Observation Call: the hazard registry and the event broadcaster

    A shallow embedding of the Express server (routes [/api/hazards],
    the [authenticate] and [isAdmin] middleware, the WebSocket [broadcast])
    over an explicit model of the two SQLite tables and of the set of
    connected sockets, followed by the properties of the registry and of
    the broadcaster.

    Modelling decisions, all visible in the definitions below:
    - a table with an [INTEGER PRIMARY KEY] is a finite map from row ids to
      rows; a nullable [TEXT] column is an [option string];
    - a request body is a JSON object whose fields are strings or [null]
      (what the client and [types.ts] send); a missing field reads as
      [undefined], and both [null] and [undefined] are bound as SQL [NULL];
    - [jwt.verify] and the conversion SQLite applies to a text compared
      with a row id are parameters of the development;
    - the [FOREIGN KEY] of the schema is enforced, as [better-sqlite3]
      builds SQLite; a statement that violates a constraint throws;
    - other storage failures (disk, row id exhaustion) are outside the
      model. *)

From stdpp Require Import gmap strings list sorting.

Local Open Scope Z_scope.

(** ** JSON values carried by a request body *)

(** Only the two kinds of value the client sends are modelled.  Numbers,
    booleans, arrays and objects, which the driver converts or refuses to
    bind, are outside the development, and every statement below about
    a request is a statement about requests whose fields are strings,
    [null] or absent. *)

Inductive jsval :=
  | JNull
  | JString (s : string).

Global Instance jsval_eq_dec : EqDecision jsval.
Proof. solve_decision. Defined.

(** The value [better-sqlite3] binds for a field read off the body. *)
Definition bind_text (v : option jsval) : option string :=
  match v with
  | Some (JString s) => Some s
  | Some JNull | None => None
  end.

(** ** The schema *)

Module Users.
Record row := mk {
  username : option string;
  password : option string;
  role : option string
}.
End Users.

Module Hazards.
Record row := mk {
  userId : Z;
  type : option string;
  location : option string;
  riskLevel : option string;
  description : option string;
  imageUrl : option string;
  status : option string;
  remarks : option string;
  createdAt : string
}.

Global Instance row_eq_dec : EqDecision row.
Proof. solve_decision. Defined.
End Hazards.

Record database := Database {
  users : gmap Z Users.row;
  hazards : gmap Z Hazards.row;
  (* the [sqlite_sequence] entries AUTOINCREMENT keeps for the two tables *)
  users_seq : Z;
  hazards_seq : Z
}.

(** ** Objects exchanged with the client ([types.ts]) *)

Module User.
Record t := mk {
  id : Z;
  username : string;
  role : string
}.
End User.

Module Hazard.
(* A result row: the columns of [hazards] under its [id], and the
   [reporter] column when the query joins [users]. *)
Record t := mk {
  id : Z;
  row : Hazards.row;
  reporter : option (option string)
}.

Global Instance eq_dec : EqDecision t.
Proof. solve_decision. Defined.
End Hazard.

Module WSMessage.
(* [payload] is absent when the handler passes [undefined]. *)
Record t := mk {
  type : string;
  payload : option Hazard.t
}.
End WSMessage.

(** ** Requests and responses *)

Record request := Request {
  cookies_token : option string;
  body : gmap string jsval;
  params_id : string
}.

Inductive json :=
  (* the page of Express's default error handler, which is not JSON *)
  | Error_page
  | Json_success
  | Json_error (error : string)
  | Json_hazard (h : option Hazard.t)
  | Json_hazards (l : list Hazard.t).

Record response := Response {
  status_code : nat;
  json_body : json
}.

(** ** The server: database, connected sockets, and what it has done *)

Inductive ReadyState := CONNECTING | OPEN | CLOSING | CLOSED.

Global Instance ReadyState_eq_dec : EqDecision ReadyState.
Proof. solve_decision. Defined.

Inductive effect :=
  | DbWrite (after : database)
  | Sent (client : nat) (message : WSMessage.t).

Record server := Server {
  db : database;
  clients : gset nat;
  readyState : nat → ReadyState;
  (* writes and socket sends, oldest first *)
  log : list effect
}.

(** Handlers thread the server through their steps; a step that throws
    yields [None] and the steps after it do not run. *)
Definition Handler (A : Type) : Type := server → option A * server.

Definition hret {A} (a : A) : Handler A := λ w, (Some a, w).
Definition hbind {A B} (m : Handler A) (k : A → Handler B) : Handler B :=
  λ w, match m w with
       | (Some a, w') => k a w'
       | (None, w') => (None, w')
       end.

(** [try { m } catch (e) { h }] *)
Definition try_catch {A} (m h : Handler A) : Handler A :=
  λ w, match m w with
       | (Some a, w') => (Some a, w')
       | (None, w') => h w'
       end.

(** A route as Express runs it: an exception that escapes the handlers
    reaches the default error handler, which answers 500. *)
Definition express (h : Handler response) : server → response * server :=
  λ w, match h w with
       | (Some res, w') => (res, w')
       | (None, w') => (Response 500 Error_page, w')
       end.

Notation "x ←ₕ m ; k" := (hbind m (λ x, k))
  (at level 20, m at level 100, k at level 200, right associativity,
   format "x  ←ₕ  m ;  '/' k").
Notation "m ;;ₕ k" := (hbind m (λ _, k))
  (at level 100, k at level 200, right associativity).

Definition db_read {A} (q : database → A) : Handler A :=
  λ w, (Some (q (db w)), w).

(** A writing statement either throws, leaving the database as it was, or
    returns its result and the database it leaves. *)
Definition db_write {A} (q : database → option (A * database)) : Handler A :=
  λ w, match q (db w) with
       | Some (a, d) =>
           (Some a, Server d (clients w) (readyState w) (log w ++ [DbWrite d]))
       | None => (None, w)
       end.

Definition throw {A} : Handler A := λ w, (None, w).

(** [client.send(message)] *)
Definition ws_send (client : nat) (message : WSMessage.t) : Handler unit :=
  λ w, (Some tt, Server (db w) (clients w) (readyState w)
                        (log w ++ [Sent client message])).

(** [set.forEach(f)] *)
Fixpoint for_each (l : list nat) (f : nat → Handler unit) : Handler unit :=
  match l with
  | [] => hret tt
  | x :: l' => f x ;;ₕ for_each l' f
  end.

(** ** The prepared statements *)

Definition max_rowid {A} (t : gmap Z A) : Z :=
  foldr Z.max 0 (map_to_list t).*1.

(** [INSERT INTO users (username, password) VALUES (?, ?)]: [role] takes its
    default ['user']; the statement throws when the [UNIQUE] username is
    already taken, and [NULL] usernames never collide. *)
Definition insert_user (username password : option string) (d : database)
    : option (Z * database) :=
  if decide (is_Some username ∧
             map_Exists (λ _ u, Users.username u = username) (users d))
  then None
  else
    let lastInsertRowid := Z.max (users_seq d) (max_rowid (users d)) + 1 in
    Some (lastInsertRowid,
          Database (<[lastInsertRowid := Users.mk username password (Some "user")]>
                      (users d))
                   (hazards d) lastInsertRowid (hazards_seq d)).

(** [INSERT INTO hazards (userId, type, location, riskLevel, description,
    imageUrl) VALUES (?, ?, ?, ?, ?, ?)].  The columns left out take their
    defaults: [status] is ['open'], [remarks] is [NULL] and [createdAt] is
    [CURRENT_TIMESTAMP], read here from [now].  AUTOINCREMENT hands out one
    more than the largest row id the table has held.  The statement throws
    when [FOREIGN KEY(userId) REFERENCES users(id)] fails. *)
Definition insert_hazard (now : string) (userId : Z)
    (type location riskLevel description imageUrl : option string)
    (d : database) : option (Z * database) :=
  if decide (is_Some (users d !! userId)) then
    let lastInsertRowid := Z.max (hazards_seq d) (max_rowid (hazards d)) + 1 in
    let r := Hazards.mk userId type location riskLevel description imageUrl
                        (Some "open") None now in
    Some (lastInsertRowid,
          Database (users d) (<[lastInsertRowid := r]> (hazards d))
                   (users_seq d) lastInsertRowid)
  else None.

(** The value bound to [WHERE id = ?]: the number [lastInsertRowid], or the
    text of the route parameter [:id]. *)
Inductive bound_id :=
  | BInt (z : Z)
  | BText (s : string).

Definition set_status_remarks (status remarks : option string)
    (r : Hazards.row) : Hazards.row :=
  Hazards.mk (Hazards.userId r) (Hazards.type r) (Hazards.location r)
             (Hazards.riskLevel r) (Hazards.description r) (Hazards.imageUrl r)
             status remarks (Hazards.createdAt r).

(** [ORDER BY createdAt DESC]: timestamps are ['YYYY-MM-DD HH:MM:SS'] texts,
    compared byte by byte. *)
Definition newest_first (a b : Hazard.t) : Prop :=
  String.le (Hazards.createdAt (Hazard.row b)) (Hazards.createdAt (Hazard.row a)).

Global Instance newest_first_dec : RelDecision newest_first.
Proof. intros a b. unfold newest_first. apply _. Defined.

Definition order_by_createdAt_desc (l : list Hazard.t) : list Hazard.t :=
  merge_sort newest_first l.

(** [SELECT h.*, u.username as reporter FROM hazards h
    JOIN users u ON h.userId = u.id ORDER BY h.createdAt DESC] *)
Definition join_reporter (us : gmap Z Users.row) (kr : Z * Hazards.row)
    : option Hazard.t :=
  u ← us !! Hazards.userId kr.2;
  Some (Hazard.mk kr.1 kr.2 (Some (Users.username u))).

Definition select_hazards_with_reporter (d : database) : list Hazard.t :=
  order_by_createdAt_desc (omap (join_reporter (users d)) (map_to_list (hazards d))).

(** [SELECT * FROM hazards WHERE userId = ? ORDER BY createdAt DESC] *)
Definition select_hazards_of (userId : Z) (d : database) : list Hazard.t :=
  order_by_createdAt_desc
    ((λ kr, Hazard.mk kr.1 kr.2 None) <$>
     filter (λ kr, Hazards.userId kr.2 = userId) (map_to_list (hazards d))).

(** ** Start-up and login *)

(** [CREATE TABLE IF NOT EXISTS] on a new database file. *)
Definition empty_database : database := Database ∅ ∅ 0 0.

(** [SELECT * FROM users WHERE username = ?], first row or [undefined].
    A [NULL] bound to the parameter equals no username. *)
Definition select_user (username : option string) (d : database)
    : option (Z * Users.row) :=
  match username with
  | Some s =>
      head (filter (λ kr, Users.username kr.2 = Some s) (map_to_list (users d)))
  | None => None
  end.

(** The seed: [if (!adminExists)] insert the administrator, with the role
    spelled out.  With no row named ['admin'] the [UNIQUE] constraint cannot
    fail. *)
Definition seed_admin (hashedPassword : string) (d : database) : database :=
  match select_user (Some "admin") d with
  | Some adminExists => d
  | None =>
      let lastInsertRowid := Z.max (users_seq d) (max_rowid (users d)) + 1 in
      Database (<[lastInsertRowid :=
                    Users.mk (Some "admin") (Some hashedPassword) (Some "admin")]>
                  (users d))
               (hazards d) lastInsertRowid (hazards_seq d)
  end.

Module Claims.
(* The object [/api/auth/login] signs and returns. *)
Record t := mk {
  id : Z;
  username : option string;
  role : option string
}.

Global Instance eq_dec : EqDecision t.
Proof. solve_decision. Defined.
End Claims.

Inductive cookie_change :=
  | Cookie_kept
  | Cookie_set (token : string).

Inductive auth_json :=
  | Auth_error_page
  | Auth_error (error : string)
  | Auth_user (user : Claims.t).

Record auth_response := Auth_response {
  auth_status : nat;
  auth_cookie : cookie_change;
  auth_body : auth_json
}.

(** ** The login route *)

Section Login.

(** [bcrypt.compareSync(s, hash)], with [bcrypt_compare] its verdict on two
    strings; it throws on anything else. *)
Variable bcrypt_compare : string → string → bool.

(** [jwt.sign(payload, JWT_SECRET)] *)
Variable jwt_sign : Claims.t → string.

Definition compareSync (s : option jsval) (hash : option string) : option bool :=
  match s, hash with
  | Some (JString p), Some h => Some (bcrypt_compare p h)
  | _, _ => None
  end.

(** [POST /api/auth/login].  The route reads the database and writes
    nothing; [user && ...] does not call [compareSync] when no row is
    found, and an exception of [compareSync] reaches Express's error
    handler. *)
Definition post_login (req : request) (d : database) : auth_response :=
  let username := bind_text (body req !! "username") in
  let password := body req !! "password" in
  match select_user username d with
  | Some (id, user) =>
      match compareSync password (Users.password user) with
      | Some true =>
          let claims := Claims.mk id (Users.username user) (Users.role user) in
          let token := jwt_sign claims in
          Auth_response 200 (Cookie_set token) (Auth_user claims)
      | Some false =>
          Auth_response 401 Cookie_kept (Auth_error "Invalid credentials")
      | None => Auth_response 500 Cookie_kept Auth_error_page
      end
  | None => Auth_response 401 Cookie_kept (Auth_error "Invalid credentials")
  end.

End Login.

(** ** The client's view of the reports ([App.tsx]) *)

(** The state updaters of [ws.onmessage], for a message with a payload:
    [prev => [msg.payload, ...prev]] and
    [prev => prev.map(h => h.id === msg.payload.id ? msg.payload : h)]. *)
Definition new_hazard_update (payload : Hazard.t) (prev : list Hazard.t)
    : list Hazard.t :=
  payload :: prev.

Definition status_update (payload : Hazard.t) (prev : list Hazard.t)
    : list Hazard.t :=
  (λ h, if decide (Hazard.id h = Hazard.id payload) then payload else h) <$> prev.

(** [hazard.reporter || 'Me'] of the report card. *)
Definition reported_by (hazard : Hazard.t) : string :=
  match Hazard.reporter hazard with
  | Some (Some name) => if decide (name = "") then "Me" else name
  | _ => "Me"
  end.

(** The counts of the stat cards:
    [hazards.filter(h => h.status === s).length]. *)
Definition count_status (s : string) (hazards : list Hazard.t) : nat :=
  length (filter (λ h, Hazards.status (Hazard.row h) = Some s) hazards).

(** Every entry of a client's list is the stored row of its id. *)
Definition in_sync (d : database) (l : list Hazard.t) : Prop :=
  ∀ h, h ∈ l → hazards d !! Hazard.id h = Some (Hazard.row h).

(** ** Invariants of the two tables *)

(** No account other than the seeded one is an administrator. *)
Definition only_seeded_admin (d : database) : Prop :=
  ∀ k u, users d !! k = Some u → Users.role u = Some "admin" → k = 1.

(** No two accounts share a username. *)
Definition usernames_unique (d : database) : Prop :=
  ∀ k1 k2 u1 u2 s,
    users d !! k1 = Some u1 → users d !! k2 = Some u2 →
    Users.username u1 = Some s → Users.username u2 = Some s → k1 = k2.

(** The columns of a report that no statement of the server writes after
    the insert. *)
Definition same_report (r r' : Hazards.row) : Prop :=
  Hazards.userId r' = Hazards.userId r ∧
  Hazards.type r' = Hazards.type r ∧
  Hazards.location r' = Hazards.location r ∧
  Hazards.riskLevel r' = Hazards.riskLevel r ∧
  Hazards.description r' = Hazards.description r ∧
  Hazards.imageUrl r' = Hazards.imageUrl r ∧
  Hazards.createdAt r' = Hazards.createdAt r.

(** What a request adds to the log: nothing, or one write followed by sends
    to registered sockets with an open transport. *)
Definition write_then_sends (w w' : server) (ext : list effect) : Prop :=
  (ext = [] ∧ db w' = db w) ∨
  ∃ sends,
    ext = DbWrite (db w') :: sends ∧
    ∀ e, e ∈ sends →
         ∃ c m, e = Sent c m ∧ c ∈ clients w ∧ readyState w c = OPEN.

(** ** Requests the server reacts to *)

Inductive action :=
  | Connection (ws : nat)
  | Close (ws : nat)
  | Transport (ws : nat) (state : ReadyState)
  | PostRegister (hashed : string) (req : request)
  | PostHazards (now : string) (req : request)
  | GetHazards (req : request)
  | PatchHazards (req : request).

(** ** Vocabulary of the properties *)

(** [HazardStatus] of [types.ts]. *)
Definition HazardStatus : list string := ["open"; "in progress"; "closed"].

Definition RiskLevel : list string := ["low"; "medium"; "high"].

Definition non_empty (v : option jsval) : bool :=
  match v with
  | Some (JString s) => bool_decide (s ≠ "")
  | _ => false
  end.

(** A submission the report form lets through: type, location and
    description filled in, the risk level one of the three buttons. *)
Definition valid_submission (b : gmap string jsval) : bool :=
  non_empty (b !! "type") && non_empty (b !! "location") &&
  non_empty (b !! "description") &&
  match b !! "riskLevel" with
  | Some (JString s) => bool_decide (s ∈ RiskLevel)
  | _ => false
  end.

(** An [updateStatus] request asks for one of the lifecycle states. *)
Definition asks_lifecycle_status (a : action) : Prop :=
  match a with
  | PatchHazards req =>
      ∃ s, body req !! "status" = Some (JString s) ∧ s ∈ HazardStatus
  | _ => True
  end.

(** Every report references an account of the [users] table. *)
Definition owner_valid (d : database) : Prop :=
  map_Forall (λ _ r, is_Some (users d !! Hazards.userId r)) (hazards d).

(** Every stored status is one of the three lifecycle states. *)
Definition status_in_enum (d : database) : Prop :=
  ∀ k r, hazards d !! k = Some r →
         ∃ s, Hazards.status r = Some s ∧ s ∈ HazardStatus.

(** The registered sockets whose transport is open, and what it means for a
    list of sockets to be exactly those. *)
Definition open_clients (w : server) : list nat :=
  filter (λ client, readyState w client = OPEN) (elements (clients w)).

Definition reached (w : server) (targets : list nat) : Prop :=
  NoDup targets ∧
  ∀ c, c ∈ targets ↔ c ∈ clients w ∧ readyState w c = OPEN.

(** ** A concrete deployment, used to run the handlers on explicit requests *)

Fixpoint decimal_value (acc : Z) (s : string) : option Z :=
  match s with
  | "" => Some acc
  | String c s' =>
      match Ascii.is_nat c with
      | Some n => decimal_value (10 * acc + Z.of_nat n) s'
      | None => None
      end
  end.

(** Plain decimal literals, on which SQLite's conversion is the obvious one. *)
Definition decimal_rowid (s : string) : option Z :=
  match s with
  | "" => None
  | _ => decimal_value 0 s
  end.

Definition admin_user : User.t := User.mk 1 "admin" "admin".
Definition alice : User.t := User.mk 2 "alice" "user".
Definition bob : User.t := User.mk 3 "bob" "user".

(** Three sessions: the token is the name of the account it was signed for. *)
Definition session_of_token (token : string) : option User.t :=
  if decide (token = "admin-token") then Some admin_user
  else if decide (token = "alice-token") then Some alice
  else if decide (token = "bob-token") then Some bob
  else None.

(** The database after the seed, with two registered employees. *)
Definition seeded_db : database :=
  Database (<[3 := Users.mk (Some "bob") (Some "$2a$10$b") (Some "user")]>
            (<[2 := Users.mk (Some "alice") (Some "$2a$10$a") (Some "user")]>
             {[1 := Users.mk (Some "admin") (Some "$2a$10$s") (Some "admin")]}))
           ∅ 3 0.

Definition spill : gmap string jsval :=
  <["description" := JString "Wet floor"]>
  (<["riskLevel" := JString "medium"]>
   (<["location" := JString "Dock 3"]>
    {["type" := JString "Spill"]})).

Definition dispatch : gmap string jsval :=
  <["remarks" := JString "Cleanup crew dispatched"]>
  {["status" := JString "in progress"]}.

(** A submission with nothing filled in and a risk level off the scale. *)
Definition blank : gmap string jsval :=
  <["description" := JString ""]>
  (<["riskLevel" := JString "extreme"]>
   (<["location" := JString ""]>
    {["type" := JString ""]})).

(** The same submission with a picture attached and a [null] description. *)
Definition blank_with_image : gmap string jsval :=
  <["imageUrl" := JString "data:image/png;base64,iVBORw0KGgo="]>
  (<["description" := JNull]> blank).

Definition archive : gmap string jsval := {["status" := JString "archived"]}.

Definition alice_credentials : gmap string jsval :=
  <["password" := JString "pw1"]> {["username" := JString "alice"]}.

(** The spill alice reported, as stored, and a second report by bob. *)
Definition spill_row : Hazards.row :=
  Hazards.mk 2 (Some "Spill") (Some "Dock 3") (Some "medium") (Some "Wet floor")
             None (Some "open") None "2026-01-01 10:00:00".

Definition cable_row : Hazards.row :=
  Hazards.mk 3 (Some "Loose cable") (Some "Bay 1") (Some "low") (Some "Trip hazard")
             None (Some "closed") (Some "Taped down") "2026-01-02 08:30:00".

Definition reported_db : database :=
  Database (users seeded_db) (<[2 := cable_row]> {[1 := spill_row]}) 3 2.

(** Sockets 7 and 8 are registered, 9 is not; only 8 has lost its transport. *)
Definition transport (ws : nat) : ReadyState :=
  if decide (ws = 8%nat) then CLOSED else OPEN.

Definition busy_server : server :=
  Server reported_db ({[7%nat]} ∪ {[8%nat]}) transport [].

Definition by_alice (b : gmap string jsval) (id : string) : request :=
  Request (Some "alice-token") b id.

Definition by_admin (b : gmap string jsval) (id : string) : request :=
  Request (Some "admin-token") b id.

(** The scenario of the specification, continued by an update that asks for
    a status outside the three lifecycle states. *)
Definition archiving_run : list action :=
  [PostRegister "$2a$10$a" (Request None alice_credentials "");
   PostHazards "2026-01-01 10:00:00" (by_alice spill "");
   PatchHazards (by_admin archive "1")].

(** The scenario of the specification, with a socket listening. *)
Definition dispatching_run : list action :=
  [Connection 7;
   Transport 7 OPEN;
   PostRegister "$2a$10$a" (Request None alice_credentials "");
   PostHazards "2026-01-01 10:00:00" (by_alice spill "");
   GetHazards (by_admin ∅ "");
   PatchHazards (by_admin dispatch "1");
   PatchHazards (by_alice dispatch "1");
   Close 7].

(** Passwords and the hashes the deployment stores for them. *)
Definition password_matches (s hash : string) : bool :=
  bool_decide ((s, hash) ∈ [("admin123", "$2a$10$s"); ("pw1", "$2a$10$a");
                            ("pw2", "$2a$10$b"); ("pw3", "$2a$10$c")]).

(** A fourth account, registered on top of [seeded_db]. *)
Definition carol : User.t := User.mk 4 "carol" "user".

Definition claims_of (u : User.t) : Claims.t :=
  Claims.mk (User.id u) (Some (User.username u)) (Some (User.role u)).

(** Signing and verifying for the four accounts. *)
Definition token_of_claims (c : Claims.t) : string :=
  if decide (c = claims_of admin_user) then "admin-token"
  else if decide (c = claims_of alice) then "alice-token"
  else if decide (c = claims_of bob) then "bob-token"
  else if decide (c = claims_of carol) then "carol-token"
  else "".

Definition claims_of_token (token : string) : option User.t :=
  if decide (token = "carol-token") then Some carol else session_of_token token.

Definition carol_credentials : gmap string jsval :=
  <["password" := JString "pw3"]> {["username" := JString "carol"]}.

Definition alice_login : gmap string jsval :=
  <["password" := JString "pw1"]> {["username" := JString "alice"]}.

Definition alice_mistyped : gmap string jsval :=
  <["password" := JString "pw2"]> {["username" := JString "alice"]}.

Definition alice_no_password : gmap string jsval :=
  {["username" := JString "alice"]}.

(** The client list of an administrator who has loaded [reported_db]. *)
Definition loaded_list : list Hazard.t :=
  [Hazard.mk 2 cable_row (Some (Some "bob"));
   Hazard.mk 1 spill_row (Some (Some "alice"))].

(** A creation by alice after socket 7 has closed. *)
Definition quiet_run : list action :=
  [PostHazards "2026-01-03 09:00:00" (by_alice spill "");
   PatchHazards (by_admin dispatch "1")].

Section Server.

(** [jwt.verify(token, JWT_SECRET)]: the claims of a token the server
    signed, or [None] where it throws. *)
Variable jwt_verify : string → option User.t.

(** The row id SQLite compares the [INTEGER PRIMARY KEY] with when the
    bound value is a text: the integer the text denotes, if it denotes
    one. *)
Variable rowid_of_text : string → option Z.

Definition rowid_of (p : bound_id) : option Z :=
  match p with
  | BInt z => Some z
  | BText s => rowid_of_text s
  end.

(** [SELECT * FROM hazards WHERE id = ?], first row or [undefined]. *)
Definition select_hazard (p : bound_id) (d : database) : option Hazard.t :=
  k ← rowid_of p;
  r ← hazards d !! k;
  Some (Hazard.mk k r None).

(** [UPDATE hazards SET status = ?, remarks = ? WHERE id = ?] *)
Definition update_hazard (status remarks : option string) (p : bound_id)
    (d : database) : option (unit * database) :=
  match rowid_of p with
  | Some k =>
      Some (tt, Database (users d)
                         (alter (set_status_remarks status remarks) k (hazards d))
                         (users_seq d) (hazards_seq d))
  | None => Some (tt, d)
  end.

(** ** WebSocket handling *)

Definition on_connection (ws : nat) (w : server) : server :=
  Server (db w) ({[ws]} ∪ clients w) (readyState w) (log w).

Definition on_close (ws : nat) (w : server) : server :=
  Server (db w) (clients w ∖ {[ws]}) (readyState w) (log w).

(** [JSON.stringify] is left out: a message is kept as the object it
    encodes.  [forEach] visits the sockets in the order they connected; the
    order of [elements] stands for it. *)
Definition broadcast (data : WSMessage.t) : Handler unit :=
  λ w,
    let message := data in
    for_each (elements (clients w))
      (λ client w',
         if decide (readyState w' client = OPEN)
         then ws_send client message w'
         else hret tt w')
      w.

(** ** Middleware *)

Definition res_json (j : json) : Handler response :=
  hret (Response 200 j).

Definition res_status_json (code : nat) (j : json) : Handler response :=
  hret (Response code j).

Definition authenticate (req : request) (next : User.t → Handler response)
    : Handler response :=
  match cookies_token req with
  | None => res_status_json 401 (Json_error "Unauthorized")
  | Some token =>
      if decide (token = "") then res_status_json 401 (Json_error "Unauthorized")
      else match jwt_verify token with
           | Some user => next user
           | None => res_status_json 401 (Json_error "Invalid token")
           end
  end.

(** The account a request acts for, when [authenticate] lets it through. *)
Definition session (req : request) : option User.t :=
  token ← cookies_token req;
  if decide (token = "") then None else jwt_verify token.

Definition isAdmin (user : User.t) (next : Handler response) : Handler response :=
  if decide (User.role user ≠ "admin")
  then res_status_json 403 (Json_error "Forbidden")
  else next.

(** ** Auth routes that touch the database *)

(** [bcrypt.hashSync(password, 10)]: [hashed] is what it returns for a
    string under the salt it draws; it throws on anything else. *)
Definition hashSync (hashed : string) (password : option jsval) : Handler string :=
  match password with
  | Some (JString _) => hret hashed
  | _ => throw
  end.

(** [POST /api/auth/register] *)
Definition post_register (hashed : string) (req : request)
    : server → response * server :=
  express (
    let username := bind_text (body req !! "username") in
    let password := body req !! "password" in
    try_catch
      (hashedPassword ←ₕ hashSync hashed password;
       (db_write (insert_user username (Some hashedPassword)) ;;ₕ
        res_json Json_success))
      (res_status_json 400 (Json_error "Username already exists"))).

(** ** Hazard routes *)

(** [POST /api/hazards] *)
Definition post_hazards (now : string) (req : request)
    : server → response * server :=
  express (authenticate req (λ user,
    let type := bind_text (body req !! "type") in
    let location := bind_text (body req !! "location") in
    let riskLevel := bind_text (body req !! "riskLevel") in
    let description := bind_text (body req !! "description") in
    let imageUrl := bind_text (body req !! "imageUrl") in
    result ←ₕ db_write (insert_hazard now (User.id user) type location
                                      riskLevel description imageUrl);
    newHazard ←ₕ db_read (select_hazard (BInt result));
    (broadcast (WSMessage.mk "NEW_HAZARD" newHazard) ;;ₕ
     res_json (Json_hazard newHazard)))).

(** [GET /api/hazards] *)
Definition get_hazards (req : request) : server → response * server :=
  express (authenticate req (λ user,
    hazards ←ₕ (if decide (User.role user = "admin")
                then db_read select_hazards_with_reporter
                else db_read (select_hazards_of (User.id user)));
    res_json (Json_hazards hazards))).

(** [PATCH /api/hazards/:id] *)
Definition patch_hazards (req : request) : server → response * server :=
  express (authenticate req (λ user,
    isAdmin user (
      let status := bind_text (body req !! "status") in
      let remarks := bind_text (body req !! "remarks") in
      (db_write (update_hazard status remarks (BText (params_id req))) ;;ₕ
       updated ←ₕ db_read (select_hazard (BText (params_id req)));
       (broadcast (WSMessage.mk "STATUS_UPDATE" updated) ;;ₕ
        res_json (Json_hazard updated)))))).

(** A request that gets past [authenticate] and [isAdmin]. *)
Definition is_admin_request (req : request) : bool :=
  match session req with
  | Some user => bool_decide (User.role user = "admin")
  | None => false
  end.

(** ** Runs of the server *)

Definition step (w : server) (a : action) : server :=
  match a with
  | Connection ws => on_connection ws w
  | Close ws => on_close ws w
  | Transport ws state =>
      Server (db w) (clients w)
             (λ c, if decide (c = ws) then state else readyState w c) (log w)
  | PostRegister hashed req => (post_register hashed req w).2
  | PostHazards now req => (post_hazards now req w).2
  | GetHazards req => (get_hazards req w).2
  | PatchHazards req => (patch_hazards req w).2
  end.

Definition run (w : server) (l : list action) : server := foldl step w l.

(** The server as [startServer] finds it on an empty database file: the
    tables created, the administrator seeded, nobody connected. *)
Definition initial (hashedPassword : string) : server :=
  Server (Database {[1 := Users.mk (Some "admin") (Some hashedPassword) (Some "admin")]}
                   ∅ 1 0)
         ∅ (λ _, CONNECTING) [].

(** ** Properties *)

(** *** Middleware *)

Lemma authenticate_session req user next :
  session req = Some user → authenticate req next = next user.
Proof.
  unfold session, authenticate. destruct (cookies_token req) as [token|]; [|done].
  simpl. case_decide; [done|]. by intros ->.
Qed.

Lemma isAdmin_admin user next :
  User.role user = "admin" → isAdmin user next = next.
Proof. intros H. unfold isAdmin. by case_decide. Qed.

Lemma isAdmin_other user next :
  User.role user ≠ "admin" →
  isAdmin user next = res_status_json 403 (Json_error "Forbidden").
Proof. intros H. unfold isAdmin. by case_decide. Qed.

(** *** Row ids *)

Lemma max_rowid_ge {A} (t : gmap Z A) k r : t !! k = Some r → k ≤ max_rowid t.
Proof.
  intros H%elem_of_map_to_list. unfold max_rowid.
  induction (map_to_list t) as [|[k' r'] l IH]; [by apply elem_of_nil in H|].
  apply elem_of_cons in H as [H|H]; simpl.
  - inversion H; subst. apply Z.le_max_l.
  - specialize (IH H). etrans; [exact IH|]. apply Z.le_max_r.
Qed.

Lemma next_rowid_fresh {A} (t : gmap Z A) seq :
  t !! (Z.max seq (max_rowid t) + 1) = None.
Proof.
  destruct (t !! _) as [r|] eqn:E; [|done].
  apply max_rowid_ge in E. lia.
Qed.

Lemma update_missing status remarks p d :
  (∀ k, rowid_of p = Some k → hazards d !! k = None) →
  update_hazard status remarks p d = Some (tt, d).
Proof.
  intros H. unfold update_hazard. destruct (rowid_of p) as [k|]; [|done].
  rewrite alter_id; [by destruct d|]. intros r Hr. rewrite H in Hr; done.
Qed.

(** *** Broadcast *)

Lemma for_each_sends message l w :
  for_each l
    (λ client w',
       if decide (readyState w' client = OPEN)
       then ws_send client message w'
       else hret tt w') w
  = (Some tt,
     Server (db w) (clients w) (readyState w)
            (log w ++ ((λ c, Sent c message) <$>
                       filter (λ client, readyState w client = OPEN) l))).
Proof.
  revert w. induction l as [|c l IH]; intros w; simpl.
  - unfold hret. rewrite app_nil_r. by destruct w.
  - unfold hbind. rewrite filter_cons. case_decide as Hc.
    + unfold ws_send. rewrite IH; simpl. by rewrite <- app_assoc.
    + unfold hret. by rewrite IH.
Qed.

Lemma broadcast_sends data w :
  broadcast data w
  = (Some tt,
     Server (db w) (clients w) (readyState w)
            (log w ++ ((λ c, Sent c data) <$> open_clients w))).
Proof. unfold broadcast, open_clients. apply for_each_sends. Qed.

(** *** What the two writing routes do, step by step *)

Lemma open_clients_reached w : reached w (open_clients w).
Proof.
  split.
  - apply NoDup_filter, NoDup_elements.
  - intros c. unfold open_clients. rewrite list_elem_of_filter, elem_of_elements.
    tauto.
Qed.

Lemma post_hazards_run now req user w :
  session req = Some user → is_Some (users (db w) !! User.id user) →
  let k := Z.max (hazards_seq (db w)) (max_rowid (hazards (db w))) + 1 in
  let r := Hazards.mk (User.id user)
             (bind_text (body req !! "type")) (bind_text (body req !! "location"))
             (bind_text (body req !! "riskLevel"))
             (bind_text (body req !! "description"))
             (bind_text (body req !! "imageUrl")) (Some "open") None now in
  let d := Database (users (db w)) (<[k := r]> (hazards (db w)))
                    (users_seq (db w)) k in
  let h := Hazard.mk k r None in
  post_hazards now req w =
    (Response 200 (Json_hazard (Some h)),
     Server d (clients w) (readyState w)
            ((log w ++ [DbWrite d]) ++
             ((λ c, Sent c (WSMessage.mk "NEW_HAZARD" (Some h))) <$> open_clients w))).
Proof.
  intros Hs Hu. unfold post_hazards. rewrite (authenticate_session _ _ _ Hs).
  unfold express, hbind, db_write, db_read, insert_hazard, select_hazard; simpl.
  case_decide; [|done]. simpl. rewrite lookup_insert_eq; simpl.
  by rewrite broadcast_sends.
Qed.

Lemma post_hazards_unregistered now req user w :
  session req = Some user → users (db w) !! User.id user = None →
  post_hazards now req w = (Response 500 Error_page, w).
Proof.
  intros Hs Hu. unfold post_hazards. rewrite (authenticate_session _ _ _ Hs).
  unfold express, hbind, db_write, insert_hazard; simpl.
  case_decide as H; [|done]. rewrite Hu in H. by destruct H.
Qed.

Lemma patch_hazards_run req user w k r :
  session req = Some user → User.role user = "admin" →
  rowid_of_text (params_id req) = Some k →
  hazards (db w) !! k = Some r →
  let r' := set_status_remarks (bind_text (body req !! "status"))
                               (bind_text (body req !! "remarks")) r in
  let d := Database (users (db w)) (<[k := r']> (hazards (db w)))
                    (users_seq (db w)) (hazards_seq (db w)) in
  let h := Hazard.mk k r' None in
  patch_hazards req w =
    (Response 200 (Json_hazard (Some h)),
     Server d (clients w) (readyState w)
            ((log w ++ [DbWrite d]) ++
             ((λ c, Sent c (WSMessage.mk "STATUS_UPDATE" (Some h))) <$> open_clients w))).
Proof.
  intros Hs Ha Hk Hr. unfold patch_hazards.
  rewrite (authenticate_session _ _ _ Hs), (isAdmin_admin _ _ Ha).
  unfold express, hbind, db_write, db_read, update_hazard, select_hazard; simpl.
  rewrite Hk; simpl.
  rewrite (alter_alt_Some _ _ _ _ Hr), lookup_insert_eq; simpl.
  by rewrite broadcast_sends.
Qed.

Lemma patch_hazards_missing req user w :
  session req = Some user → User.role user = "admin" →
  (∀ k, rowid_of_text (params_id req) = Some k → hazards (db w) !! k = None) →
  patch_hazards req w =
    (Response 200 (Json_hazard None),
     Server (db w) (clients w) (readyState w)
            ((log w ++ [DbWrite (db w)]) ++
             ((λ c, Sent c (WSMessage.mk "STATUS_UPDATE" None)) <$> open_clients w))).
Proof.
  intros Hs Ha Hk. unfold patch_hazards.
  rewrite (authenticate_session _ _ _ Hs), (isAdmin_admin _ _ Ha).
  unfold express, hbind, db_write, db_read; simpl.
  rewrite (update_missing _ _ (BText (params_id req)) (db w) Hk).
  unfold select_hazard; simpl.
  destruct (rowid_of_text (params_id req)) as [k|] eqn:E; simpl.
  - rewrite (Hk k eq_refl); simpl. by rewrite broadcast_sends.
  - by rewrite broadcast_sends.
Qed.

(** *** Status updates *)

Lemma patch_hazards_forbidden req user w :
  session req = Some user → User.role user ≠ "admin" →
  patch_hazards req w = (Response 403 (Json_error "Forbidden"), w).
Proof.
  intros Hs Ha. unfold patch_hazards.
  by rewrite (authenticate_session _ _ _ Hs), (isAdmin_other _ _ Ha).
Qed.

(** C1. An [updateStatus] request whose actor is not an administrator is
    answered 403 [Forbidden] and changes nothing on the server: every stored
    report, its status and remarks included, is as it was. *)
Theorem update_status_non_admin_forbidden req user w :
  session req = Some user → User.role user ≠ "admin" →
  (patch_hazards req w).1 = Response 403 (Json_error "Forbidden") ∧
  (patch_hazards req w).2 = w.
Proof.
  intros Hs Ha. by rewrite (patch_hazards_forbidden _ _ _ Hs Ha).
Qed.

(** C2. An administrator's [updateStatus] on an existing report, whatever
    status the report had, with a requested status among open, in progress
    and closed, is answered 200 with the report carrying the requested status
    and remarks, and that is the row now stored.  Asking for the status
    the report already has is no exception. *)
Theorem update_status_admin_overwrites req user w k r status :
  session req = Some user → User.role user = "admin" →
  rowid_of_text (params_id req) = Some k →
  hazards (db w) !! k = Some r →
  body req !! "status" = Some (JString status) → status ∈ HazardStatus →
  ∃ h,
    (patch_hazards req w).1 = Response 200 (Json_hazard (Some h)) ∧
    Hazard.id h = k ∧
    Hazards.status (Hazard.row h) = Some status ∧
    Hazards.remarks (Hazard.row h) = bind_text (body req !! "remarks") ∧
    hazards (db (patch_hazards req w).2) !! k = Some (Hazard.row h).
Proof.
  intros Hs Ha Hk Hr Hst _.
  rewrite (patch_hazards_run _ _ _ _ _ Hs Ha Hk Hr); simpl.
  eexists; split; [reflexivity|]; simpl.
  rewrite Hst, lookup_insert_eq. done.
Qed.

(** C3, as the code has it. An administrator's [updateStatus] on a report id
    that is not in the store is answered 200 with an empty body, and no
    record is created or modified. *)
Theorem update_status_missing_report req user w :
  session req = Some user → User.role user = "admin" →
  (∀ k, rowid_of_text (params_id req) = Some k → hazards (db w) !! k = None) →
  (patch_hazards req w).1 = Response 200 (Json_hazard None) ∧
  db (patch_hazards req w).2 = db w.
Proof.
  intros Hs Ha Hk. by rewrite (patch_hazards_missing _ _ _ Hs Ha Hk).
Qed.

(** *** Report creation *)

(** C6, as the code has it. [createReport] checks nothing.  Every
    authenticated submission by a registered account whose fields are
    strings, [null] or absent - type, location or description empty or
    not, riskLevel one of low, medium, high or not - is answered 200, never
    400, with the created record, and that record is stored under a fresh
    id while no other row changes.  Each of type, location, riskLevel,
    description and imageUrl is stored as submitted: a string as that
    string, the empty one included, and a [null] or absent field as
    [NULL].  The owner is the session's account, status is open, remarks
    are [NULL] and createdAt is the time of the insert. *)
Theorem create_report_persists_any now req user w :
  session req = Some user → is_Some (users (db w) !! User.id user) →
  ∃ h,
    (post_hazards now req w).1 = Response 200 (Json_hazard (Some h)) ∧
    hazards (db w) !! Hazard.id h = None ∧
    hazards (db (post_hazards now req w).2)
      = <[Hazard.id h := Hazard.row h]> (hazards (db w)) ∧
    Hazards.type (Hazard.row h) = bind_text (body req !! "type") ∧
    Hazards.location (Hazard.row h) = bind_text (body req !! "location") ∧
    Hazards.riskLevel (Hazard.row h) = bind_text (body req !! "riskLevel") ∧
    Hazards.description (Hazard.row h) = bind_text (body req !! "description") ∧
    Hazards.imageUrl (Hazard.row h) = bind_text (body req !! "imageUrl") ∧
    Hazards.userId (Hazard.row h) = User.id user ∧
    Hazards.status (Hazard.row h) = Some "open" ∧
    Hazards.remarks (Hazard.row h) = None ∧
    Hazards.createdAt (Hazard.row h) = now ∧
    Hazard.reporter h = None ∧
    (∀ field s, body req !! field = Some (JString s) →
                bind_text (body req !! field) = Some s) ∧
    (∀ field, body req !! field = None ∨ body req !! field = Some JNull →
              bind_text (body req !! field) = None).
Proof.
  intros Hs Hu. rewrite (post_hazards_run _ _ _ _ Hs Hu); simpl.
  eexists; split; [reflexivity|]; simpl.
  split; [apply next_rowid_fresh|].
  repeat (split; [done|]). split.
  - by intros field s ->.
  - by intros field [-> | ->].
Qed.

(** C7. For a valid submission by a registered account the record
    [createReport] returns has status open and no remarks ([remarks] is
    [NULL]). *)
Theorem create_report_open_no_remarks now req user w :
  session req = Some user → is_Some (users (db w) !! User.id user) →
  valid_submission (body req) = true →
  ∃ h,
    (post_hazards now req w).1 = Response 200 (Json_hazard (Some h)) ∧
    Hazards.status (Hazard.row h) = Some "open" ∧
    Hazards.remarks (Hazard.row h) = None.
Proof.
  intros Hs Hu _. rewrite (post_hazards_run _ _ _ _ Hs Hu); simpl.
  by eexists.
Qed.

(** C10. Whatever an authenticated [createReport] request adds to the store
    is owned by the account of the session.  Every row the store holds
    afterwards was there before or has the id of the verified token as
    [userId]; for a registered account the request does store such a row
    and returns it; a [userId] field put in the request body changes
    nothing. *)
Theorem create_report_owner_is_session now req user w :
  session req = Some user →
  (∀ k r, hazards (db (post_hazards now req w).2) !! k = Some r →
          hazards (db w) !! k = Some r ∨ Hazards.userId r = User.id user) ∧
  (is_Some (users (db w) !! User.id user) →
   ∃ h,
     (post_hazards now req w).1 = Response 200 (Json_hazard (Some h)) ∧
     hazards (db w) !! Hazard.id h = None ∧
     hazards (db (post_hazards now req w).2) !! Hazard.id h = Some (Hazard.row h) ∧
     Hazards.userId (Hazard.row h) = User.id user) ∧
  (∀ v, post_hazards now
          (Request (cookies_token req) (<["userId" := v]> (body req)) (params_id req)) w
        = post_hazards now req w).
Proof.
  intros Hs. split; [|split].
  - intros k r. destruct (users (db w) !! User.id user) as [u|] eqn:Hu.
    + rewrite (post_hazards_run _ _ _ _ Hs); [|by rewrite Hu]. simpl.
      rewrite lookup_insert. case_decide; [|by left]. intros [= <-]. by right.
    + rewrite (post_hazards_unregistered _ _ _ _ Hs Hu). by left.
  - intros Hu. rewrite (post_hazards_run _ _ _ _ Hs Hu); simpl.
    eexists; split; [reflexivity|]; simpl.
    split; [apply next_rowid_fresh|]. by rewrite lookup_insert_eq.
  - intros v. destruct (users (db w) !! User.id user) as [u|] eqn:Hu.
    + rewrite (post_hazards_run now (Request _ _ _) user w Hs),
        (post_hazards_run _ _ _ _ Hs); [|by rewrite Hu..]. simpl.
      by rewrite !lookup_insert_ne.
    + by rewrite (post_hazards_unregistered now (Request _ _ _) user w Hs Hu),
        (post_hazards_unregistered _ _ _ _ Hs Hu).
Qed.

(** *** Broadcasts *)

(** C9. A successful [createReport] and a successful [updateStatus] each
    append to the server's log one database write followed by the sends of
    one message - [NEW_HAZARD], respectively [STATUS_UPDATE] - to exactly the
    registered sockets whose transport is open, one send each; the payload
    is the record of the response, which is the row the store now holds. *)
Theorem broadcast_once_after_persist now req user w :
  session req = Some user →
  (is_Some (users (db w) !! User.id user) →
   ∃ h targets,
     let w' := (post_hazards now req w).2 in
     (post_hazards now req w).1 = Response 200 (Json_hazard (Some h)) ∧
     hazards (db w') !! Hazard.id h = Some (Hazard.row h) ∧
     reached w targets ∧
     log w' = log w ++ DbWrite (db w') ::
                ((λ c, Sent c (WSMessage.mk "NEW_HAZARD" (Some h))) <$> targets)) ∧
  (∀ k r,
     User.role user = "admin" →
     rowid_of_text (params_id req) = Some k →
     hazards (db w) !! k = Some r →
     ∃ h targets,
       let w' := (patch_hazards req w).2 in
       (patch_hazards req w).1 = Response 200 (Json_hazard (Some h)) ∧
       hazards (db w') !! Hazard.id h = Some (Hazard.row h) ∧
       reached w targets ∧
       log w' = log w ++ DbWrite (db w') ::
                  ((λ c, Sent c (WSMessage.mk "STATUS_UPDATE" (Some h))) <$> targets)).
Proof.
  intros Hs. split.
  - intros Hu. rewrite (post_hazards_run _ _ _ _ Hs Hu); simpl.
    eexists _, (open_clients w); simpl.
    split; [reflexivity|]. rewrite lookup_insert_eq.
    split; [done|]. split; [apply open_clients_reached|].
    by rewrite <- app_assoc.
  - intros k r Ha Hk Hr.
    rewrite (patch_hazards_run _ _ _ _ _ Hs Ha Hk Hr); simpl.
    eexists _, (open_clients w); simpl.
    split; [reflexivity|]. rewrite lookup_insert_eq.
    split; [done|]. split; [apply open_clients_reached|].
    by rewrite <- app_assoc.
Qed.

(** *** Listing *)

Global Instance newest_first_trans : Transitive newest_first.
Proof. intros a b c Hab Hbc. unfold newest_first in *. by etrans. Qed.

Global Instance newest_first_total : Total newest_first.
Proof. intros a b. unfold newest_first. apply (total String.le). Qed.

Lemma elem_of_order_by l h : h ∈ order_by_createdAt_desc l ↔ h ∈ l.
Proof. unfold order_by_createdAt_desc. by rewrite merge_sort_Permutation. Qed.

Lemma length_order_by l : length (order_by_createdAt_desc l) = length l.
Proof. unfold order_by_createdAt_desc. by rewrite merge_sort_Permutation. Qed.

Lemma order_by_sorted l : StronglySorted newest_first (order_by_createdAt_desc l).
Proof. apply StronglySorted_merge_sort; apply _. Qed.

Lemma length_omap_total {A B} (f : A → option B) (l : list A) :
  (∀ x, x ∈ l → is_Some (f x)) → length (omap f l) = length l.
Proof.
  induction l as [|x l IH]; intros H; [done|]. simpl.
  destruct (H x) as [y ->]; [by left|]. simpl. f_equal.
  apply IH. intros x' Hx'. apply H. by right.
Qed.

(** C4. What [listReports] returns to a viewer who is not an administrator
    (an employee, role ['user']) holds only stored reports whose owner id is
    the viewer's account id. *)
Theorem list_reports_employee_own req user w :
  session req = Some user → User.role user ≠ "admin" →
  ∃ l,
    get_hazards req w = (Response 200 (Json_hazards l), w) ∧
    ∀ h, h ∈ l →
         hazards (db w) !! Hazard.id h = Some (Hazard.row h) ∧
         Hazards.userId (Hazard.row h) = User.id user.
Proof.
  intros Hs Ha. unfold get_hazards. rewrite (authenticate_session _ _ _ Hs).
  case_decide; [done|].
  eexists; split; [reflexivity|].
  intros h [[k r] [-> [Ho Hin]%list_elem_of_filter]]%elem_of_order_by%list_elem_of_fmap.
  simpl in *. by apply elem_of_map_to_list in Hin.
Qed.

(** C5. On a store where every report has its owner in [users], what
    [listReports] returns to an administrator holds every stored report,
    annotated with the username of its owner as [reporter], holds nothing
    else, one entry per report, newest first by [createdAt]. *)
Theorem list_reports_admin_all req user w :
  session req = Some user → User.role user = "admin" →
  owner_valid (db w) →
  ∃ l,
    get_hazards req w = (Response 200 (Json_hazards l), w) ∧
    (∀ k r, hazards (db w) !! k = Some r →
            ∃ u, users (db w) !! Hazards.userId r = Some u ∧
                 Hazard.mk k r (Some (Users.username u)) ∈ l) ∧
    (∀ h, h ∈ l →
          hazards (db w) !! Hazard.id h = Some (Hazard.row h) ∧
          ∃ u, users (db w) !! Hazards.userId (Hazard.row h) = Some u ∧
               Hazard.reporter h = Some (Users.username u)) ∧
    length l = size (hazards (db w)) ∧
    StronglySorted newest_first l.
Proof.
  intros Hs Ha Hv. unfold get_hazards. rewrite (authenticate_session _ _ _ Hs).
  case_decide; [|done].
  eexists; split; [reflexivity|]. unfold select_hazards_with_reporter.
  split; [|split; [|split]].
  - intros k r Hr. destruct (Hv k r Hr) as [u Hu]. exists u. split; [done|].
    apply elem_of_order_by, list_elem_of_omap. exists (k, r).
    split; [by apply elem_of_map_to_list|].
    unfold join_reporter; simpl. by rewrite Hu.
  - intros h [[k r] [Hin Hj]]%elem_of_order_by%list_elem_of_omap.
    apply elem_of_map_to_list in Hin. unfold join_reporter in Hj; simpl in Hj.
    destruct (users (db w) !! Hazards.userId r) as [u|] eqn:Hu; simplify_eq/=.
    split; [done|]. by exists u.
  - rewrite length_order_by, length_omap_total; [apply length_map_to_list|].
    intros [k r] Hin%elem_of_map_to_list. unfold join_reporter; simpl.
    destruct (Hv k r Hin) as [u ->]. by eexists.
  - apply order_by_sorted.
Qed.

(** *** Reachable stores *)

Lemma authenticate_no_session req next w :
  session req = None → (express (authenticate req next) w).2 = w.
Proof.
  unfold session, express, authenticate.
  destruct (cookies_token req) as [token|]; [|done].
  simpl. case_decide; [done|]. by intros ->.
Qed.

Lemma get_hazards_state req w : (get_hazards req w).2 = w.
Proof.
  destruct (session req) as [user|] eqn:Hs; unfold get_hazards.
  - unfold express. rewrite (authenticate_session _ _ _ Hs). by case_decide.
  - by apply authenticate_no_session.
Qed.

Lemma post_register_hazards hashed req w :
  hazards (db (post_register hashed req w).2) = hazards (db w).
Proof.
  unfold post_register, express, try_catch, hbind, hashSync, db_write, insert_user.
  destruct (body req !! "password") as [[|?]|]; [done| |done].
  simpl. by case_decide.
Qed.

Lemma status_in_enum_insert d k r us useq hseq s :
  status_in_enum d → Hazards.status r = Some s → s ∈ HazardStatus →
  status_in_enum (Database us (<[k := r]> (hazards d)) useq hseq).
Proof.
  intros Hd Hr Hs k' r'. simpl. rewrite lookup_insert. case_decide.
  - intros [= <-]. eauto.
  - apply Hd.
Qed.

Lemma post_hazards_status now req w :
  status_in_enum (db w) → status_in_enum (db (post_hazards now req w).2).
Proof.
  intros Hd. destruct (session req) as [user|] eqn:Hs.
  - destruct (users (db w) !! User.id user) as [u|] eqn:Hu.
    + rewrite (post_hazards_run _ _ _ _ Hs); [|by rewrite Hu]. simpl.
      eapply status_in_enum_insert; [done..|]. unfold HazardStatus. set_solver.
    + by rewrite (post_hazards_unregistered _ _ _ _ Hs Hu).
  - unfold post_hazards. by rewrite authenticate_no_session.
Qed.

Lemma patch_hazards_status req w :
  asks_lifecycle_status (PatchHazards req) →
  status_in_enum (db w) → status_in_enum (db (patch_hazards req w).2).
Proof.
  intros (s & Hb & Hs) Hd. destruct (session req) as [user|] eqn:Hu.
  - destruct (decide (User.role user = "admin")) as [Ha|Ha].
    + destruct (rowid_of_text (params_id req)) as [k|] eqn:Hk.
      * destruct (hazards (db w) !! k) as [r|] eqn:Hr.
        -- rewrite (patch_hazards_run _ _ _ _ _ Hu Ha Hk Hr); simpl.
           eapply status_in_enum_insert; [done| |done]. simpl. by rewrite Hb.
        -- rewrite patch_hazards_missing with (user := user); [by destruct w|done..|].
           intros k' Hk'. congruence.
      * rewrite patch_hazards_missing with (user := user); [by destruct w|done..|].
        intros k' Hk'. congruence.
    + by rewrite (patch_hazards_forbidden _ _ _ Hu Ha).
  - unfold patch_hazards. by rewrite authenticate_no_session.
Qed.

Lemma step_status a w :
  asks_lifecycle_status a →
  status_in_enum (db w) → status_in_enum (db (step w a)).
Proof.
  destruct a; simpl; try done.
  - intros _ Hd k r. rewrite post_register_hazards. apply Hd.
  - intros _. apply post_hazards_status.
  - intros _. by rewrite get_hazards_state.
  - apply patch_hazards_status.
Qed.

Lemma run_status l w :
  Forall asks_lifecycle_status l →
  status_in_enum (db w) → status_in_enum (db (run w l)).
Proof.
  revert w. induction l as [|a l IH]; intros w Hl Hd; [done|].
  apply Forall_cons in Hl as [Ha Hl]. simpl.
  apply IH; [done|]. by apply step_status.
Qed.

(** The owner of every report stays a row of [users] along every run: the
    foreign key rejects a report whose owner is missing, accounts are never
    deleted, and an update leaves [userId] alone. *)
Lemma post_register_owner_valid hashed req w :
  owner_valid (db w) → owner_valid (db (post_register hashed req w).2).
Proof.
  intros Hv.
  unfold post_register, express, try_catch, hbind, hashSync, db_write, insert_user.
  destruct (body req !! "password") as [[|?]|]; [done| |done].
  simpl. case_decide; [done|]. simpl.
  intros k r Hr. specialize (Hv k r Hr). simpl in *. destruct Hv as [u Hu].
  rewrite lookup_insert_ne; [by eexists|].
  intros Heq. rewrite <- Heq in Hu. by rewrite next_rowid_fresh in Hu.
Qed.

Lemma post_hazards_owner_valid now req w :
  owner_valid (db w) → owner_valid (db (post_hazards now req w).2).
Proof.
  intros Hv. destruct (session req) as [user|] eqn:Hs.
  - destruct (users (db w) !! User.id user) as [u|] eqn:Hu.
    + rewrite (post_hazards_run _ _ _ _ Hs); [|by rewrite Hu]. simpl.
      intros k r. simpl. rewrite lookup_insert. case_decide.
      * intros [= <-]. simpl. by rewrite Hu.
      * apply Hv.
    + by rewrite (post_hazards_unregistered _ _ _ _ Hs Hu).
  - unfold post_hazards. by rewrite authenticate_no_session.
Qed.

Lemma patch_hazards_owner_valid req w :
  owner_valid (db w) → owner_valid (db (patch_hazards req w).2).
Proof.
  intros Hv. destruct (session req) as [user|] eqn:Hu.
  - destruct (decide (User.role user = "admin")) as [Ha|Ha].
    + destruct (rowid_of_text (params_id req)) as [k|] eqn:Hk.
      * destruct (hazards (db w) !! k) as [r|] eqn:Hr.
        -- rewrite (patch_hazards_run _ _ _ _ _ Hu Ha Hk Hr); simpl.
           intros k' r'. simpl. rewrite lookup_insert. case_decide.
           ++ intros [= <-]. simpl. by apply (Hv k r).
           ++ apply Hv.
        -- rewrite patch_hazards_missing with (user := user); [by destruct w|done..|].
           intros k' Hk'. congruence.
      * rewrite patch_hazards_missing with (user := user); [by destruct w|done..|].
        intros k' Hk'. congruence.
    + by rewrite (patch_hazards_forbidden _ _ _ Hu Ha).
  - unfold patch_hazards. by rewrite authenticate_no_session.
Qed.

Lemma run_owner_valid hashedPassword l :
  owner_valid (db (run (initial hashedPassword) l)).
Proof.
  assert (H0 : owner_valid (db (initial hashedPassword))).
  { intros k r. simpl. by rewrite lookup_empty. }
  revert H0. generalize (initial hashedPassword).
  induction l as [|a l IH]; intros w Hv; [done|].
  simpl. apply IH. destruct a; simpl; try done.
  - by apply post_register_owner_valid.
  - by apply post_hazards_owner_valid.
  - by rewrite get_hazards_state.
  - by apply patch_hazards_owner_valid.
Qed.

(** C8, as the code has it. Along every run of the server from its initial
    state in which each [updateStatus] request asks for one of the three
    lifecycle states, every stored report has one of them as status: a
    report is created open, and an update stores the status it is sent. *)
Theorem status_enum_along_runs hashedPassword l :
  Forall asks_lifecycle_status l →
  status_in_enum (db (run (initial hashedPassword) l)).
Proof.
  intros Hl. apply run_status; [done|].
  intros k r. simpl. by rewrite lookup_empty.
Qed.

(** ** Further properties of the server *)

(** *** Requests without a session *)

Lemma authenticate_rejects req next w :
  session req = None →
  express (authenticate req next) w =
    (Response 401
       (Json_error (if decide (cookies_token req = None ∨ cookies_token req = Some "")
                    then "Unauthorized" else "Invalid token")), w).
Proof.
  unfold session, express, authenticate.
  destruct (cookies_token req) as [token|]; cbn [mbind option_bind].
  - destruct (decide (token = "")) as [->|Ht].
    + intros _. rewrite decide_True; [done|by right].
    + intros ->. rewrite decide_False; [done|]. by intros [?|[= ?]].
  - intros _. rewrite decide_True; [done|by left].
Qed.

(** X1. A request that carries no token, an empty token, or a token
    [jwt.verify] rejects is answered 401 by each of the three hazard routes
    - [Unauthorized] in the first two cases, [Invalid token] in the third -
    and the server is left exactly as it was: nothing is stored, listed or
    broadcast. *)
Theorem hazard_routes_require_session now req w :
  session req = None →
  let res :=
    Response 401
      (Json_error (if decide (cookies_token req = None ∨ cookies_token req = Some "")
                   then "Unauthorized" else "Invalid token")) in
  post_hazards now req w = (res, w) ∧
  get_hazards req w = (res, w) ∧
  patch_hazards req w = (res, w).
Proof.
  intros Hs. unfold post_hazards, get_hazards, patch_hazards.
  by rewrite !(authenticate_rejects _ _ _ Hs).
Qed.

(** *** Registration *)

Lemma insert_user_free name password d :
  (∀ s, name = Some s → ∀ k u, users d !! k = Some u → Users.username u ≠ Some s) →
  let k := Z.max (users_seq d) (max_rowid (users d)) + 1 in
  insert_user name password d
  = Some (k, Database (<[k := Users.mk name password (Some "user")]> (users d))
                      (hazards d) k (hazards_seq d)).
Proof.
  intros Hfree. unfold insert_user. case_decide as H; [|done].
  destruct H as [[s ->] (k & u & Hu & Hn)]. by destruct (Hfree s eq_refl k u Hu).
Qed.

Lemma insert_user_taken s password d k u :
  users d !! k = Some u → Users.username u = Some s →
  insert_user (Some s) password d = None.
Proof.
  intros Hu Hn. unfold insert_user. case_decide as H; [done|].
  destruct H. split; [by eexists|]. by exists k, u.
Qed.

(** X2. Registration with a string password and a username no account has
    (or no username at all) is answered 200 and adds one account under a
    fresh id, with the submitted name, the given hash and the role ['user'];
    the other accounts, the reports and the sockets are untouched and
    nothing is broadcast. *)
Theorem register_adds_user hashed req w p :
  body req !! "password" = Some (JString p) →
  (∀ s, body req !! "username" = Some (JString s) →
        ∀ k u, users (db w) !! k = Some u → Users.username u ≠ Some s) →
  ∃ k,
    (post_register hashed req w).1 = Response 200 Json_success ∧
    users (db w) !! k = None ∧
    users (db (post_register hashed req w).2)
      = <[k := Users.mk (bind_text (body req !! "username")) (Some hashed) (Some "user")]>
          (users (db w)) ∧
    hazards (db (post_register hashed req w).2) = hazards (db w) ∧
    clients (post_register hashed req w).2 = clients w ∧
    log (post_register hashed req w).2
      = log w ++ [DbWrite (db (post_register hashed req w).2)].
Proof.
  intros Hp Hfree.
  unfold post_register, express, try_catch, hbind, hashSync, db_write. rewrite Hp.
  simpl. rewrite insert_user_free.
  - simpl. eexists. split; [done|]. split; [apply next_rowid_fresh|done].
  - intros s Hs. apply Hfree. by destruct (body req !! "username") as [[|?]|]; simplify_eq/=.
Qed.

Lemma post_register_rejected hashed req w :
  (∃ s k u, body req !! "username" = Some (JString s) ∧
            users (db w) !! k = Some u ∧ Users.username u = Some s) ∨
  (∀ p, body req !! "password" ≠ Some (JString p)) →
  post_register hashed req w
  = (Response 400 (Json_error "Username already exists"), w).
Proof.
  intros H. unfold post_register, express, try_catch, hbind, hashSync, db_write.
  destruct (body req !! "password") as [[|p]|] eqn:Hp; [done| |done].
  destruct H as [(s & k & u & Hs & Hu & Hn)|H]; [|by destruct (H p)].
  rewrite Hs; simpl. by rewrite (insert_user_taken _ _ _ _ _ Hu Hn).
Qed.

(** X3. Registration under a username an account already has, or with a
    password that is missing, [null] or otherwise not a string, is
    answered 400 with the one message [Username already exists], and the
    server is left exactly as it was. *)
Theorem register_rejected hashed req w :
  (∃ s k u, body req !! "username" = Some (JString s) ∧
            users (db w) !! k = Some u ∧ Users.username u = Some s) ∨
  (∀ p, body req !! "password" ≠ Some (JString p)) →
  post_register hashed req w
  = (Response 400 (Json_error "Username already exists"), w).
Proof.
  apply post_register_rejected.
Qed.

(** *** The accounts along a run *)

Lemma post_hazards_users now req w :
  users (db (post_hazards now req w).2) = users (db w).
Proof.
  destruct (session req) as [user|] eqn:Hs.
  - destruct (users (db w) !! User.id user) as [u|] eqn:Hu.
    + by rewrite (post_hazards_run _ _ _ _ Hs); [|by rewrite Hu].
    + by rewrite (post_hazards_unregistered _ _ _ _ Hs Hu).
  - unfold post_hazards. by rewrite authenticate_no_session.
Qed.

Lemma patch_hazards_users req w :
  users (db (patch_hazards req w).2) = users (db w).
Proof.
  destruct (session req) as [user|] eqn:Hu.
  - destruct (decide (User.role user = "admin")) as [Ha|Ha].
    + destruct (rowid_of_text (params_id req)) as [k|] eqn:Hk.
      * destruct (hazards (db w) !! k) as [r|] eqn:Hr.
        -- by rewrite (patch_hazards_run _ _ _ _ _ Hu Ha Hk Hr).
        -- rewrite patch_hazards_missing with (user := user); [done..|].
           intros k' Hk'. congruence.
      * rewrite patch_hazards_missing with (user := user); [done..|].
        intros k' Hk'. congruence.
    + by rewrite (patch_hazards_forbidden _ _ _ Hu Ha).
  - unfold patch_hazards. by rewrite authenticate_no_session.
Qed.

(** A step leaves [users] alone or adds one employee under a fresh id and
    a username nobody has. *)
Lemma step_users w a :
  users (db (step w a)) = users (db w) ∨
  ∃ k name password,
    users (db w) !! k = None ∧
    (∀ s, name = Some s →
          ∀ k' u, users (db w) !! k' = Some u → Users.username u ≠ Some s) ∧
    users (db (step w a)) = <[k := Users.mk name password (Some "user")]> (users (db w)).
Proof.
  destruct a as [ws|ws|ws st|hashed req|now req|req|req]; simpl; try by left.
  - unfold post_register, express, try_catch, hbind, hashSync, db_write.
    destruct (body req !! "password") as [[|p]|]; [by left| |by left].
    simpl. unfold insert_user. case_decide as H; [by left|]. simpl. right.
    eexists _, _, _. split; [apply next_rowid_fresh|]. split; [|done].
    intros s Hs k' u Hu Hn. destruct H. split; [by eexists|]. exists k', u.
    split; [done|]. simpl. congruence.
  - left. apply post_hazards_users.
  - left. by rewrite get_hazards_state.
  - left. apply patch_hazards_users.
Qed.

Lemma step_users_persist w a k u :
  users (db w) !! k = Some u → users (db (step w a)) !! k = Some u.
Proof.
  intros Hu. destruct (step_users w a) as [->|(k' & name & pw & Hk' & _ & ->)]; [done|].
  rewrite lookup_insert_ne; [done|]. intros ->. congruence.
Qed.

Lemma run_users_persist l w k u :
  users (db w) !! k = Some u → users (db (run w l)) !! k = Some u.
Proof.
  revert w. induction l as [|a l IH]; intros w Hu; [done|].
  simpl. apply IH. by apply step_users_persist.
Qed.

Lemma step_only_seeded_admin w a :
  only_seeded_admin (db w) → only_seeded_admin (db (step w a)).
Proof.
  intros Hinv. unfold only_seeded_admin in *.
  destruct (step_users w a) as [->|(k' & name & pw & Hk' & _ & ->)]; [done|].
  intros k u. rewrite lookup_insert. case_decide.
  - by intros [= <-].
  - apply Hinv.
Qed.

Lemma step_usernames_unique w a :
  usernames_unique (db w) → usernames_unique (db (step w a)).
Proof.
  intros Hinv. unfold usernames_unique in *.
  destruct (step_users w a) as [->|(k' & name & pw & Hk' & Hfree & ->)]; [done|].
  intros k1 k2 u1 u2 s. rewrite !lookup_insert.
  repeat case_decide; subst; try done.
  - intros [= <-] Hu2 Hn1 Hn2. simpl in Hn1. by destruct (Hfree s Hn1 k2 u2 Hu2).
  - intros Hu1 [= <-] Hn1 Hn2. simpl in Hn2. by destruct (Hfree s Hn2 k1 u1 Hu1).
  - apply Hinv.
Qed.

(** X4. However the server is driven from its initial state, the seeded
    account - row 1 - is the only one with the role ['admin']: no request
    makes an administrator. *)
Theorem run_only_seeded_admin hashedPassword l :
  only_seeded_admin (db (run (initial hashedPassword) l)).
Proof.
  assert (H : only_seeded_admin (db (initial hashedPassword))).
  { intros k u. simpl. rewrite lookup_singleton. by case_decide. }
  revert H. generalize (initial hashedPassword).
  induction l as [|a l IH]; intros w Hinv; [done|].
  simpl. apply IH. by apply step_only_seeded_admin.
Qed.

(** X5. However the server is driven from its initial state, no two
    accounts have the same username. *)
Theorem run_usernames_unique hashedPassword l :
  usernames_unique (db (run (initial hashedPassword) l)).
Proof.
  assert (H : usernames_unique (db (initial hashedPassword))).
  { intros k1 k2 u1 u2 s. simpl. rewrite !lookup_singleton.
    repeat case_decide; naive_solver. }
  revert H. generalize (initial hashedPassword).
  induction l as [|a l IH]; intros w Hinv; [done|].
  simpl. apply IH. by apply step_usernames_unique.
Qed.

(** X6. A taken username stays taken: once an account has a username, then
    after any further requests a registration under that name is answered
    400 and changes nothing. *)
Theorem username_stays_taken l w k u s hashed req :
  users (db w) !! k = Some u → Users.username u = Some s →
  body req !! "username" = Some (JString s) →
  post_register hashed req (run w l)
  = (Response 400 (Json_error "Username already exists"), run w l).
Proof.
  intros Hu Hn Hs. apply post_register_rejected. left.
  exists s, k, u. split; [done|]. split; [|done]. by apply run_users_persist.
Qed.

(** *** The reports along a run *)

(** A step leaves [hazards] alone, adds one report of the session's account
    under a fresh id, or rewrites status and remarks of the row an
    administrator addresses. *)
Lemma step_hazards w a :
  hazards (db (step w a)) = hazards (db w) ∨
  (∃ now req user k r,
     a = PostHazards now req ∧ session req = Some user ∧
     hazards (db w) !! k = None ∧ Hazards.userId r = User.id user ∧
     hazards (db (step w a)) = <[k := r]> (hazards (db w))) ∨
  (∃ req user k r,
     a = PatchHazards req ∧ session req = Some user ∧ User.role user = "admin" ∧
     rowid_of_text (params_id req) = Some k ∧ hazards (db w) !! k = Some r ∧
     hazards (db (step w a))
     = <[k := set_status_remarks (bind_text (body req !! "status"))
                                 (bind_text (body req !! "remarks")) r]>
         (hazards (db w))).
Proof.
  destruct a as [ws|ws|ws st|hashed req|now req|req|req]; simpl; try by left.
  - left. apply post_register_hazards.
  - destruct (session req) as [user|] eqn:Hs.
    + destruct (users (db w) !! User.id user) as [u|] eqn:Hu.
      * right; left. rewrite (post_hazards_run _ _ _ _ Hs); [|by rewrite Hu]. simpl.
        eexists now, req, user, _, _.
        split; [done|]. split; [done|]. split; [apply next_rowid_fresh|].
        split; [|reflexivity]. done.
      * left. by rewrite (post_hazards_unregistered _ _ _ _ Hs Hu).
    + left. unfold post_hazards. by rewrite authenticate_no_session.
  - left. by rewrite get_hazards_state.
  - destruct (session req) as [user|] eqn:Hu.
    + destruct (decide (User.role user = "admin")) as [Ha|Ha].
      * destruct (rowid_of_text (params_id req)) as [k|] eqn:Hk.
        -- destruct (hazards (db w) !! k) as [r|] eqn:Hr.
           ++ right; right. rewrite (patch_hazards_run _ _ _ _ _ Hu Ha Hk Hr). simpl.
              by eexists req, user, k, r.
           ++ left. rewrite patch_hazards_missing with (user := user); [done..|].
              intros k' Hk'. congruence.
        -- left. rewrite patch_hazards_missing with (user := user); [done..|].
           intros k' Hk'. congruence.
      * left. by rewrite (patch_hazards_forbidden _ _ _ Hu Ha).
    + left. unfold patch_hazards. by rewrite authenticate_no_session.
Qed.

Lemma same_report_refl r : same_report r r.
Proof. by repeat split. Qed.

Lemma same_report_trans r1 r2 r3 :
  same_report r1 r2 → same_report r2 r3 → same_report r1 r3.
Proof.
  unfold same_report. intros (?&?&?&?&?&?&?) (?&?&?&?&?&?&?).
  repeat split; congruence.
Qed.

Lemma step_report_persists w a k r :
  hazards (db w) !! k = Some r →
  ∃ r', hazards (db (step w a)) !! k = Some r' ∧ same_report r r'.
Proof.
  intros Hr.
  destruct (step_hazards w a)
    as [->|[(now & req & user & k' & r' & _ & _ & Hk' & _ & ->)
           |(req & user & k' & r' & _ & _ & _ & _ & Hk' & ->)]].
  - exists r. split; [done|apply same_report_refl].
  - exists r. rewrite lookup_insert_ne; [|intros ->; congruence].
    split; [done|apply same_report_refl].
  - rewrite lookup_insert. case_decide as Hkk.
    + subst k'. rewrite Hr in Hk'. injection Hk' as <-.
      eexists; split; [done|]. by repeat split.
    + exists r. split; [done|apply same_report_refl].
Qed.

(** X7. A stored report is never deleted and, apart from status and
    remarks, never rewritten: after any further requests it is still
    stored under its id with the same owner, type, location, risk level,
    description, image and creation time. *)
Theorem report_persists l w k r :
  hazards (db w) !! k = Some r →
  ∃ r', hazards (db (run w l)) !! k = Some r' ∧ same_report r r'.
Proof.
  revert w r. induction l as [|a l IH]; intros w r Hr.
  - exists r. split; [done|apply same_report_refl].
  - destruct (step_report_persists w a k r Hr) as (r1 & Hr1 & Hs1).
    destruct (IH _ _ Hr1) as (r2 & Hr2 & Hs2).
    exists r2. split; [done|]. by eapply same_report_trans.
Qed.

(** X8. A stored report changes in one step only through
    [PATCH /api/hazards/:id] sent by an administrator and addressed to that
    report, and it then carries the status and remarks of that request. *)
Theorem report_changes_only_by_admin w a k r r' :
  hazards (db w) !! k = Some r →
  hazards (db (step w a)) !! k = Some r' →
  r' ≠ r →
  ∃ req user,
    a = PatchHazards req ∧ session req = Some user ∧ User.role user = "admin" ∧
    rowid_of_text (params_id req) = Some k ∧
    Hazards.status r' = bind_text (body req !! "status") ∧
    Hazards.remarks r' = bind_text (body req !! "remarks").
Proof.
  intros Hr Hr' Hne.
  destruct (step_hazards w a)
    as [H|[(now & req & user & k' & r0 & _ & _ & Hk' & _ & H)
          |(req & user & k' & r0 & -> & Hs & Ha & Hk & Hk' & H)]];
    rewrite H in Hr'.
  - congruence.
  - rewrite lookup_insert_ne in Hr'; [congruence|]. intros ->. congruence.
  - rewrite lookup_insert in Hr'. case_decide as Hkk; [|congruence].
    subst k'. injection Hr' as <-. by exists req, user.
Qed.

(** *** The log of a step *)

Lemma sends_to_open_clients w (m : WSMessage.t) e :
  e ∈ (λ c, Sent c m) <$> open_clients w →
  ∃ c m', e = Sent c m' ∧ c ∈ clients w ∧ readyState w c = OPEN.
Proof.
  intros (c & -> & Hc)%list_elem_of_fmap.
  apply (open_clients_reached w) in Hc. by exists c, m.
Qed.

Lemma step_log_shape w a :
  ∃ ext, log (step w a) = log w ++ ext ∧ write_then_sends w (step w a) ext.
Proof.
  destruct a as [ws|ws|ws st|hashed req|now req|req|req]; simpl.
  - exists []. rewrite app_nil_r. split; [done|by left].
  - exists []. rewrite app_nil_r. split; [done|by left].
  - exists []. rewrite app_nil_r. split; [done|by left].
  - unfold post_register, express, try_catch, hbind, hashSync, db_write.
    destruct (body req !! "password") as [[|p]|];
      try (exists []; rewrite app_nil_r; split; [done|by left]).
    simpl. destruct (insert_user _ _ _) as [[k d]|]; simpl.
    + eexists. split; [done|]. right. exists []. split; [done|].
      intros e He. by apply elem_of_nil in He.
    + exists []. rewrite app_nil_r. split; [done|by left].
  - destruct (session req) as [user|] eqn:Hs.
    + destruct (users (db w) !! User.id user) as [u|] eqn:Hu.
      * rewrite (post_hazards_run _ _ _ _ Hs); [|by rewrite Hu]. simpl.
        eexists. split; [by rewrite <- app_assoc|]. right.
        eexists. split; [done|]. apply sends_to_open_clients.
      * rewrite (post_hazards_unregistered _ _ _ _ Hs Hu).
        exists []. rewrite app_nil_r. split; [done|by left].
    + unfold post_hazards. rewrite authenticate_no_session; [|done].
      exists []. rewrite app_nil_r. split; [done|by left].
  - rewrite get_hazards_state.
    exists []. rewrite app_nil_r. split; [done|by left].
  - destruct (session req) as [user|] eqn:Hu.
    + destruct (decide (User.role user = "admin")) as [Ha|Ha].
      * assert (Hmiss :
          (∀ k, rowid_of_text (params_id req) = Some k → hazards (db w) !! k = None) →
          ∃ ext, log (patch_hazards req w).2 = log w ++ ext ∧
                 write_then_sends w (patch_hazards req w).2 ext).
        { intros Hk. rewrite (patch_hazards_missing _ _ _ Hu Ha Hk). simpl.
          eexists. split; [by rewrite <- app_assoc|]. right.
          eexists. split; [done|]. apply sends_to_open_clients. }
        destruct (rowid_of_text (params_id req)) as [k|] eqn:Hk.
        -- destruct (hazards (db w) !! k) as [r|] eqn:Hr.
           ++ rewrite (patch_hazards_run _ _ _ _ _ Hu Ha Hk Hr). simpl.
              eexists. split; [by rewrite <- app_assoc|]. right.
              eexists. split; [done|]. apply sends_to_open_clients.
           ++ apply Hmiss. intros k' Hk'. congruence.
        -- apply Hmiss. intros k' Hk'. congruence.
      * rewrite (patch_hazards_forbidden _ _ _ Hu Ha).
        exists []. rewrite app_nil_r. split; [done|by left].
    + unfold patch_hazards. rewrite authenticate_no_session; [|done].
      exists []. rewrite app_nil_r. split; [done|by left].
Qed.

(** X9. Whatever the request, a step appends to the log either nothing,
    and then the database is as it was, or one write - of the database the
    step leaves - followed only by sends to sockets that were registered
    with an open transport: the database never changes without a write
    on record, and nothing is sent before the write of its request. *)
Theorem step_writes_then_sends w a :
  ∃ ext,
    log (step w a) = log w ++ ext ∧
    ((ext = [] ∧ db (step w a) = db w) ∨
     ∃ sends,
       ext = DbWrite (db (step w a)) :: sends ∧
       ∀ e, e ∈ sends →
            ∃ c m, e = Sent c m ∧ c ∈ clients w ∧ readyState w c = OPEN).
Proof.
  destruct (step_log_shape w a) as (ext & Hlog & Hshape).
  exists ext. split; [exact Hlog|]. exact Hshape.
Qed.

(** *** Sockets *)

Lemma post_register_shape hashed req w :
  ∃ d ext, (post_register hashed req w).2
           = Server d (clients w) (readyState w) (log w ++ ext).
Proof.
  unfold post_register, express, try_catch, hbind, hashSync, db_write.
  destruct (body req !! "password") as [[|p]|]; simpl;
    try (exists (db w), []; rewrite app_nil_r; by destruct w).
  destruct (insert_user _ _ _) as [[k d]|]; simpl.
  - by eexists _, _.
  - exists (db w), []. rewrite app_nil_r. by destruct w.
Qed.

Lemma post_hazards_shape now req w :
  ∃ d ext, (post_hazards now req w).2
           = Server d (clients w) (readyState w) (log w ++ ext).
Proof.
  destruct (session req) as [user|] eqn:Hs.
  - destruct (users (db w) !! User.id user) as [u|] eqn:Hu.
    + rewrite (post_hazards_run _ _ _ _ Hs); [|by rewrite Hu]. simpl.
      eexists _, _. by rewrite <- app_assoc.
    + rewrite (post_hazards_unregistered _ _ _ _ Hs Hu).
      exists (db w), []. rewrite app_nil_r. by destruct w.
  - unfold post_hazards. rewrite authenticate_no_session; [|done].
    exists (db w), []. rewrite app_nil_r. by destruct w.
Qed.

Lemma patch_hazards_shape req w :
  ∃ d ext, (patch_hazards req w).2
           = Server d (clients w) (readyState w) (log w ++ ext).
Proof.
  destruct (session req) as [user|] eqn:Hu.
  - destruct (decide (User.role user = "admin")) as [Ha|Ha].
    + assert (Hmiss :
        (∀ k, rowid_of_text (params_id req) = Some k → hazards (db w) !! k = None) →
        ∃ d ext, (patch_hazards req w).2
                 = Server d (clients w) (readyState w) (log w ++ ext)).
      { intros Hk. rewrite (patch_hazards_missing _ _ _ Hu Ha Hk). simpl.
        eexists _, _. by rewrite <- app_assoc. }
      destruct (rowid_of_text (params_id req)) as [k|] eqn:Hk.
      * destruct (hazards (db w) !! k) as [r|] eqn:Hr.
        -- rewrite (patch_hazards_run _ _ _ _ _ Hu Ha Hk Hr). simpl.
           eexists _, _. by rewrite <- app_assoc.
        -- apply Hmiss. intros k' Hk'. congruence.
      * apply Hmiss. intros k' Hk'. congruence.
    + rewrite (patch_hazards_forbidden _ _ _ Hu Ha).
      exists (db w), []. rewrite app_nil_r. by destruct w.
  - unfold patch_hazards. rewrite authenticate_no_session; [|done].
    exists (db w), []. rewrite app_nil_r. by destruct w.
Qed.

(** Only the socket events change the set of registered sockets. *)
Lemma step_clients w a :
  clients (step w a)
  = match a with
    | Connection ws => {[ws]} ∪ clients w
    | Close ws => clients w ∖ {[ws]}
    | _ => clients w
    end.
Proof.
  destruct a as [ws|ws|ws st|hashed req|now req|req|req]; simpl; try done.
  - by destruct (post_register_shape hashed req w) as (d & ext & ->).
  - by destruct (post_hazards_shape now req w) as (d & ext & ->).
  - by rewrite get_hazards_state.
  - by destruct (patch_hazards_shape req w) as (d & ext & ->).
Qed.

Lemma step_sends_registered w a ext c m :
  log (step w a) = log w ++ ext → Sent c m ∈ ext → c ∈ clients w.
Proof.
  intros Hlog Hin.
  destruct (step_log_shape w a) as (ext' & Hlog' & Hw).
  rewrite Hlog in Hlog'. apply app_inv_head in Hlog'. subst ext'.
  destruct Hw as [[-> _]|(sends & -> & Hsends)].
  - by apply elem_of_nil in Hin.
  - apply elem_of_cons in Hin as [?|Hin]; [done|].
    destruct (Hsends _ Hin) as (c' & m' & [= <- <-] & Hc & _). done.
Qed.

Lemma run_sends_registered l w ws :
  ws ∉ clients w → Connection ws ∉ l →
  ∃ ext, log (run w l) = log w ++ ext ∧ ∀ m, Sent ws m ∉ ext.
Proof.
  revert w. induction l as [|a l IH]; intros w Hws Hl.
  - exists []. rewrite app_nil_r. split; [done|]. intros m Hin.
    by apply elem_of_nil in Hin.
  - apply not_elem_of_cons in Hl as [Ha Hl].
    destruct (step_log_shape w a) as (ext1 & Hlog1 & _).
    destruct (IH (step w a)) as (ext2 & Hlog2 & Hno); [|done|].
    + rewrite step_clients. destruct a; try done.
      * apply not_elem_of_union. split; [|done].
        rewrite elem_of_singleton. congruence.
      * intros [? _]%elem_of_difference. done.
    + exists (ext1 ++ ext2). simpl. rewrite Hlog2, Hlog1, app_assoc.
      split; [done|]. intros m [Hin|Hin]%elem_of_app.
      * by apply (step_sends_registered w a ext1 ws m Hlog1) in Hin.
      * by apply (Hno m).
Qed.

(** X10. Once a socket has closed, nothing is sent to it - whatever its
    [readyState], whatever the requests - until it connects again. *)
Theorem closed_socket_receives_nothing l w ws ext m :
  Connection ws ∉ l →
  log (run (on_close ws w) l) = log w ++ ext →
  Sent ws m ∉ ext.
Proof.
  intros Hl Hlog.
  destruct (run_sends_registered l (on_close ws w) ws) as (ext' & Hlog' & Hno);
    [|done|].
  { simpl. intros [_ Hn]%elem_of_difference. apply Hn. by apply elem_of_singleton. }
  simpl in Hlog'. rewrite Hlog in Hlog'. apply app_inv_head in Hlog'. subst ext'.
  apply Hno.
Qed.

(** *** Status updates, composed *)

Lemma patch_hazards_db req w :
  db (patch_hazards req w).2
  = (if is_admin_request req then
       match rowid_of_text (params_id req) with
       | Some k =>
           Database (users (db w))
                    (alter (set_status_remarks (bind_text (body req !! "status"))
                                               (bind_text (body req !! "remarks")))
                           k (hazards (db w)))
                    (users_seq (db w)) (hazards_seq (db w))
       | None => db w
       end
     else db w) ∧
  (is_admin_request req = true →
   (patch_hazards req w).1
   = Response 200 (Json_hazard (select_hazard (BText (params_id req))
                                              (db (patch_hazards req w).2)))).
Proof.
  unfold is_admin_request. destruct (session req) as [user|] eqn:Hu.
  - destruct (decide (User.role user = "admin")) as [Ha|Ha].
    + rewrite bool_decide_true; [|done]. unfold patch_hazards.
      rewrite (authenticate_session _ _ _ Hu), (isAdmin_admin _ _ Ha).
      unfold express, hbind, db_write, db_read, update_hazard; simpl.
      destruct (rowid_of_text (params_id req)) as [k|] eqn:Hk; simpl;
        by rewrite broadcast_sends.
    + rewrite bool_decide_false; [|done].
      by rewrite (patch_hazards_forbidden _ _ _ Hu Ha).
  - unfold patch_hazards. by rewrite authenticate_no_session.
Qed.

(** X11. The last update wins: after any [PATCH] of a report, an
    administrator's [PATCH] of the same report leaves the store, and gets
    the response, it would have left and got without the first.  In
    particular sending the same update twice is the same as sending it
    once. *)
Theorem update_last_writer_wins req1 req2 w :
  is_admin_request req2 = true → params_id req1 = params_id req2 →
  db (patch_hazards req2 (patch_hazards req1 w).2).2 = db (patch_hazards req2 w).2 ∧
  (patch_hazards req2 (patch_hazards req1 w).2).1 = (patch_hazards req2 w).1.
Proof.
  intros Ha Hid.
  assert (Hdb : db (patch_hazards req2 (patch_hazards req1 w).2).2
                = db (patch_hazards req2 w).2).
  { rewrite (proj1 (patch_hazards_db req2 (patch_hazards req1 w).2)),
      (proj1 (patch_hazards_db req2 w)), !(proj1 (patch_hazards_db req1 w)).
    rewrite Ha, Hid.
    destruct (is_admin_request req1); [|done].
    destruct (rowid_of_text (params_id req2)) as [k|]; [|done]. simpl.
    by rewrite alter_alter_eq. }
  split; [done|].
  by rewrite !(proj2 (patch_hazards_db req2 _) Ha), Hdb.
Qed.

(** X12. Updates of different reports commute: the store two [PATCH]
    requests leave does not depend on their order when they address
    different row ids. *)
Theorem updates_of_different_reports_commute req1 req2 w :
  rowid_of_text (params_id req1) ≠ rowid_of_text (params_id req2) →
  db (patch_hazards req2 (patch_hazards req1 w).2).2
  = db (patch_hazards req1 (patch_hazards req2 w).2).2.
Proof.
  intros Hne.
  rewrite (proj1 (patch_hazards_db req2 (patch_hazards req1 w).2)),
    (proj1 (patch_hazards_db req1 (patch_hazards req2 w).2)),
    !(proj1 (patch_hazards_db req1 w)), !(proj1 (patch_hazards_db req2 w)).
  destruct (is_admin_request req1), (is_admin_request req2); try done.
  destruct (rowid_of_text (params_id req1)) as [k1|],
    (rowid_of_text (params_id req2)) as [k2|]; simpl; try done.
  rewrite alter_alter_ne; [done|congruence].
Qed.

(** *** Listing, exactly *)

Lemma elem_of_select_hazards_of userId d h :
  h ∈ select_hazards_of userId d ↔
  Hazard.reporter h = None ∧
  hazards d !! Hazard.id h = Some (Hazard.row h) ∧
  Hazards.userId (Hazard.row h) = userId.
Proof.
  unfold select_hazards_of. rewrite elem_of_order_by, list_elem_of_fmap. split.
  - intros ([k r] & -> & [Ho Hin]%list_elem_of_filter). simpl in *.
    by apply elem_of_map_to_list in Hin.
  - intros (Hrep & Hin & Ho). exists (Hazard.id h, Hazard.row h). split.
    + destruct h; simpl in *. by subst.
    + apply list_elem_of_filter. split; [done|]. by apply elem_of_map_to_list.
Qed.

Lemma elem_of_select_hazards_with_reporter d h :
  h ∈ select_hazards_with_reporter d ↔
  hazards d !! Hazard.id h = Some (Hazard.row h) ∧
  ∃ u, users d !! Hazards.userId (Hazard.row h) = Some u ∧
       Hazard.reporter h = Some (Users.username u).
Proof.
  unfold select_hazards_with_reporter.
  rewrite elem_of_order_by, list_elem_of_omap. unfold join_reporter. split.
  - intros ([k r] & Hin%elem_of_map_to_list & Hj). simpl in Hj.
    destruct (users d !! Hazards.userId r) as [u|] eqn:Hu; simplify_eq/=.
    split; [done|]. by exists u.
  - intros (Hin & u & Hu & Hrep). exists (Hazard.id h, Hazard.row h).
    split; [by apply elem_of_map_to_list|]. simpl. rewrite Hu. simpl.
    destruct h; simpl in *. by subst.
Qed.

Lemma NoDup_select_hazards_of userId d : NoDup (select_hazards_of userId d).
Proof.
  unfold select_hazards_of, order_by_createdAt_desc.
  rewrite merge_sort_Permutation. apply NoDup_fmap_2_strong.
  - intros [k1 r1] [k2 r2] _ _ [= -> ->]. done.
  - apply NoDup_filter, NoDup_map_to_list.
Qed.

(** X13. What [listReports] returns to a viewer who is not an
    administrator is exactly the viewer's own stored reports: each of
    them once, without a [reporter] field, newest first. *)
Theorem list_reports_employee_exact req user w :
  session req = Some user → User.role user ≠ "admin" →
  ∃ l,
    get_hazards req w = (Response 200 (Json_hazards l), w) ∧
    (∀ h, h ∈ l ↔
          Hazard.reporter h = None ∧
          hazards (db w) !! Hazard.id h = Some (Hazard.row h) ∧
          Hazards.userId (Hazard.row h) = User.id user) ∧
    NoDup l ∧
    StronglySorted newest_first l.
Proof.
  intros Hs Ha. unfold get_hazards, express.
  rewrite (authenticate_session _ _ _ Hs). case_decide; [done|].
  eexists; split; [reflexivity|]. split; [|split].
  - intros h. apply elem_of_select_hazards_of.
  - apply NoDup_select_hazards_of.
  - apply order_by_sorted.
Qed.

(** X14. A report that has just been created is listed: the creator finds
    the returned record in their own list, no other employee finds it in
    theirs, and an administrator finds it with the creator's username as
    [reporter]. *)
Theorem created_report_is_listed now req user w req' viewer :
  session req = Some user → is_Some (users (db w) !! User.id user) →
  session req' = Some viewer →
  ∃ h l,
    (post_hazards now req w).1 = Response 200 (Json_hazard (Some h)) ∧
    (get_hazards req' (post_hazards now req w).2).1 = Response 200 (Json_hazards l) ∧
    if decide (User.role viewer = "admin")
    then ∃ u, users (db w) !! User.id user = Some u ∧
              Hazard.mk (Hazard.id h) (Hazard.row h) (Some (Users.username u)) ∈ l
    else h ∈ l ↔ User.id viewer = User.id user.
Proof.
  intros Hs [u Hu] Hv.
  rewrite (post_hazards_run _ _ _ _ Hs); [|by rewrite Hu]. simpl.
  unfold get_hazards, express. rewrite (authenticate_session _ _ _ Hv).
  unfold hbind, db_read, res_json, hret.
  destruct (decide (User.role viewer = "admin")) as [Ha|Ha]; simpl;
    (eexists _, _; split; [reflexivity|]; split; [reflexivity|]).
  - exists u. split; [done|].
    apply elem_of_select_hazards_with_reporter. simpl.
    rewrite lookup_insert_eq. split; [done|]. by exists u.
  - rewrite elem_of_select_hazards_of. simpl.
    rewrite lookup_insert_eq. split.
    + by intros (_ & _ & ->).
    + by intros ->.
Qed.

(** *** Start-up *)

Lemma select_user_Some name d k u :
  select_user name d = Some (k, u) →
  users d !! k = Some u ∧ ∃ s, name = Some s ∧ Users.username u = Some s.
Proof.
  unfold select_user. destruct name as [s|]; [|done].
  intros [Hn Hin]%head_Some_elem_of%list_elem_of_filter.
  apply elem_of_map_to_list in Hin. split; [done|]. by exists s.
Qed.

Lemma select_user_None s d :
  select_user (Some s) d = None →
  ∀ k u, users d !! k = Some u → Users.username u ≠ Some s.
Proof.
  unfold select_user. intros Hh k u Hu Hn.
  apply head_None in Hh.
  assert ((k, u) ∈ filter (λ kr, Users.username kr.2 = Some s) (map_to_list (users d)))
    as Hin.
  { apply list_elem_of_filter. split; [done|]. by apply elem_of_map_to_list. }
  rewrite Hh in Hin. by apply elem_of_nil in Hin.
Qed.

Lemma select_user_found s d k u :
  users d !! k = Some u → Users.username u = Some s →
  (∀ k' u', users d !! k' = Some u' → Users.username u' = Some s → k' = k) →
  select_user (Some s) d = Some (k, u).
Proof.
  intros Hu Hn Huniq.
  destruct (select_user (Some s) d) as [[k' u']|] eqn:Hsel.
  - apply select_user_Some in Hsel as (Hu' & s' & [= <-] & Hn').
    assert (k' = k) as -> by eauto. congruence.
  - by destruct (select_user_None _ _ Hsel k u Hu).
Qed.

(** X15. The seed runs once: on a database that has an account named
    ['admin'] - whatever its role and password - it changes nothing, so
    seeding a seeded database, with the same or another hash, is the
    identity; on a new database it yields the initial state of the
    runs above. *)
Theorem seed_admin_once hashed hashed' d :
  ((∃ k u, users d !! k = Some u ∧ Users.username u = Some "admin") →
   seed_admin hashed d = d) ∧
  seed_admin hashed' (seed_admin hashed d) = seed_admin hashed d ∧
  seed_admin hashed empty_database = db (initial hashed).
Proof.
  assert (Hkeep : ∀ h d', (∃ k u, users d' !! k = Some u ∧
                                  Users.username u = Some "admin") →
                          seed_admin h d' = d').
  { intros h d' (k & u & Hu & Hn). unfold seed_admin.
    destruct (select_user (Some "admin") d') as [[k' u']|] eqn:Hsel; [done|].
    by destruct (select_user_None _ _ Hsel k u Hu). }
  split; [apply Hkeep|]. split.
  - apply Hkeep. unfold seed_admin.
    destruct (select_user (Some "admin") d) as [[k u]|] eqn:Hsel.
    + apply select_user_Some in Hsel as (Hu & s & [= <-] & Hn). by exists k, u.
    + eexists _, _. simpl. by rewrite lookup_insert_eq.
  - unfold seed_admin, empty_database, initial. simpl.
    unfold select_user. by rewrite map_to_list_empty.
Qed.

(** *** Login *)

(** X16. [POST /api/auth/login] sets a cookie only for an account of the
    [users] table with the submitted username whose stored hash
    [bcrypt.compareSync] accepts for the submitted password; the token in
    the cookie, and the 200 response, carry that account's id, username
    and role. *)
Theorem login_cookie_is_earned bcrypt_compare jwt_sign req d token :
  auth_cookie (post_login bcrypt_compare jwt_sign req d) = Cookie_set token →
  ∃ k u s p h,
    body req !! "username" = Some (JString s) ∧
    body req !! "password" = Some (JString p) ∧
    users d !! k = Some u ∧ Users.username u = Some s ∧
    Users.password u = Some h ∧ bcrypt_compare p h = true ∧
    token = jwt_sign (Claims.mk k (Some s) (Users.role u)) ∧
    post_login bcrypt_compare jwt_sign req d
    = Auth_response 200 (Cookie_set token)
                    (Auth_user (Claims.mk k (Some s) (Users.role u))).
Proof.
  unfold post_login.
  destruct (select_user _ d) as [[k u]|] eqn:Hsel; [|done].
  apply select_user_Some in Hsel as (Hu & s & Hs & Hn).
  unfold compareSync.
  destruct (body req !! "password") as [[|p]|] eqn:Hp; try done.
  destruct (Users.password u) as [h|] eqn:Hh; [|done].
  destruct (bcrypt_compare p h) eqn:Hc; [|done].
  simpl. intros [= <-]. exists k, u, s, p, h.
  destruct (body req !! "username") as [[|s']|]; simplify_eq/=.
  rewrite Hn. done.
Qed.

Lemma login_unknown_username bcrypt_compare jwt_sign req d :
  (∀ s, body req !! "username" = Some (JString s) →
        ∀ k u, users d !! k = Some u → Users.username u ≠ Some s) →
  post_login bcrypt_compare jwt_sign req d
  = Auth_response 401 Cookie_kept (Auth_error "Invalid credentials").
Proof.
  intros Hfree. unfold post_login.
  destruct (select_user _ d) as [[k u]|] eqn:Hsel; [|done].
  apply select_user_Some in Hsel as (Hu & s & Hs & Hn).
  destruct (body req !! "username") as [[|s']|]; simplify_eq/=.
  by destruct (Hfree s eq_refl k u Hu).
Qed.

(** X17. A wrong password and an unknown username are answered alike:
    401 [Invalid credentials], no cookie.  With unique usernames, "wrong"
    is the verdict of [bcrypt.compareSync] on the hash of the one account
    with that name. *)
Theorem login_rejections_alike bcrypt_compare jwt_sign req d :
  ((∀ s, body req !! "username" = Some (JString s) →
         ∀ k u, users d !! k = Some u → Users.username u ≠ Some s) ∨
   (∃ s p k u h,
      body req !! "username" = Some (JString s) ∧
      body req !! "password" = Some (JString p) ∧
      usernames_unique d ∧ users d !! k = Some u ∧ Users.username u = Some s ∧
      Users.password u = Some h ∧ bcrypt_compare p h = false)) →
  post_login bcrypt_compare jwt_sign req d
  = Auth_response 401 Cookie_kept (Auth_error "Invalid credentials").
Proof.
  intros [Hfree|(s & p & k & u & h & Hs & Hp & Huniq & Hu & Hn & Hh & Hc)].
  - by apply login_unknown_username.
  - unfold post_login. rewrite Hs, Hp. cbn [bind_text].
    rewrite (select_user_found s d k u Hu Hn); [|by eauto].
    unfold compareSync. by rewrite Hh, Hc.
Qed.

(** X18. A login without a string password - missing, or [null] - makes
    [bcrypt.compareSync] throw when an account has the submitted
    username, and the answer is then 500; when no account has it, the
    answer is the usual 401.  Neither sets a cookie. *)
Theorem login_without_password bcrypt_compare jwt_sign req d :
  (∀ p, body req !! "password" ≠ Some (JString p)) →
  ((∃ s k u, body req !! "username" = Some (JString s) ∧
             users d !! k = Some u ∧ Users.username u = Some s) →
   post_login bcrypt_compare jwt_sign req d
   = Auth_response 500 Cookie_kept Auth_error_page) ∧
  ((∀ s, body req !! "username" = Some (JString s) →
         ∀ k u, users d !! k = Some u → Users.username u ≠ Some s) →
   post_login bcrypt_compare jwt_sign req d
   = Auth_response 401 Cookie_kept (Auth_error "Invalid credentials")).
Proof.
  intros Hp. split.
  - intros (s & k & u & Hs & Hu & Hn). unfold post_login.
    rewrite Hs. cbn [bind_text].
    destruct (select_user (Some s) d) as [[k' u']|] eqn:Hsel.
    + unfold compareSync. destruct (body req !! "password") as [[|p]|]; try done.
      by destruct (Hp p).
    + by destruct (select_user_None _ _ Hsel k u Hu).
  - apply login_unknown_username.
Qed.

(** *** The administrator's list along a run *)

(** X23. However the server is driven from its initial state, every stored
    report has its owner in [users] - the foreign key refuses any other -
    so what [listReports] returns to an administrator leaves no report
    out: it has one entry per stored report, each with the owner's
    username as [reporter]. *)
Theorem admin_list_complete_along_runs hashedPassword l req user :
  session req = Some user → User.role user = "admin" →
  let w := run (initial hashedPassword) l in
  owner_valid (db w) ∧
  ∃ lst,
    get_hazards req w = (Response 200 (Json_hazards lst), w) ∧
    length lst = size (hazards (db w)) ∧
    ∀ k r, hazards (db w) !! k = Some r →
           ∃ u, users (db w) !! Hazards.userId r = Some u ∧
                Hazard.mk k r (Some (Users.username u)) ∈ lst.
Proof.
  intros Hs Ha w.
  assert (Hv : owner_valid (db w)) by apply run_owner_valid.
  split; [exact Hv|].
  unfold get_hazards, express. rewrite (authenticate_session _ _ _ Hs).
  case_decide; [|done].
  eexists; split; [reflexivity|]. split.
  - unfold select_hazards_with_reporter.
    rewrite length_order_by, length_omap_total; [apply length_map_to_list|].
    intros [k r] Hin%elem_of_map_to_list. unfold join_reporter; simpl.
    destruct (Hv k r Hin) as [u ->]. by eexists.
  - intros k r Hr. destruct (Hv k r Hr) as [u Hu]. exists u. split; [done|].
    apply elem_of_select_hazards_with_reporter. simpl. split; [done|]. by exists u.
Qed.

(** *** From registration to a refused update *)

(** X19. An account made through [/api/auth/register] can log in with its
    password, and the token it gets opens no status update: any
    [PATCH /api/hazards/:id] bearing it is refused and changes nothing.
    [jwt.verify] is assumed to return the role that was signed. *)
Theorem registered_account_cannot_update
    bcrypt_compare jwt_sign hashed reg login w s p p' :
  (∀ c u, jwt_verify (jwt_sign c) = Some u → Claims.role c = Some (User.role u)) →
  body reg !! "username" = Some (JString s) →
  body reg !! "password" = Some (JString p) →
  (∀ k u, users (db w) !! k = Some u → Users.username u ≠ Some s) →
  body login !! "username" = Some (JString s) →
  body login !! "password" = Some (JString p') →
  bcrypt_compare p' hashed = true →
  ∃ token,
    (post_register hashed reg w).1 = Response 200 Json_success ∧
    auth_cookie (post_login bcrypt_compare jwt_sign login
                   (db (post_register hashed reg w).2)) = Cookie_set token ∧
    ∀ req w', cookies_token req = Some token →
              status_code (patch_hazards req w').1 ≠ 200%nat ∧
              (patch_hazards req w').2 = w'.
Proof.
  intros Hverify Hs Hp Hfree Hls Hlp Hc.
  set (k := Z.max (users_seq (db w)) (max_rowid (users (db w))) + 1).
  set (row := Users.mk (Some s) (Some hashed) (Some "user")).
  assert (Hreg : post_register hashed reg w
                 = (Response 200 Json_success,
                    Server (Database (<[k := row]> (users (db w))) (hazards (db w))
                                     k (hazards_seq (db w)))
                           (clients w) (readyState w)
                           (log w ++ [DbWrite (Database (<[k := row]> (users (db w)))
                                                        (hazards (db w)) k
                                                        (hazards_seq (db w)))]))).
  { unfold post_register, express, try_catch, hbind, hashSync, db_write.
    rewrite Hp, Hs. simpl. rewrite insert_user_free; [done|].
    intros s' [= <-]. apply Hfree. }
  exists (jwt_sign (Claims.mk k (Some s) (Some "user"))).
  rewrite Hreg. simpl. split; [done|]. split.
  - unfold post_login. rewrite Hls, Hlp. cbn [bind_text].
    rewrite (select_user_found s _ k row).
    + simpl. by rewrite Hc.
    + simpl. apply lookup_insert_eq.
    + done.
    + simpl. intros k' u'. rewrite lookup_insert. case_decide; [done|].
      intros Hu' Hn'. by destruct (Hfree k' u' Hu').
  - intros req w' Htok.
    destruct (session req) as [user|] eqn:Hsess.
    + assert (User.role user ≠ "admin") as Ha.
      { unfold session in Hsess. rewrite Htok in Hsess. simpl in Hsess.
        case_decide; [done|]. apply Hverify in Hsess. simpl in Hsess.
        injection Hsess as <-. done. }
      by rewrite (patch_hazards_forbidden _ _ _ Hsess Ha).
    + unfold patch_hazards. by rewrite (authenticate_rejects _ _ _ Hsess).
Qed.

(** *** The client's list *)

(** X20. A client whose list agrees with the store keeps agreeing when it
    applies the message of a creation or of a status update to it: every
    entry is still the stored row of its id. *)
Theorem client_list_stays_in_sync now req user w prev :
  session req = Some user → in_sync (db w) prev →
  (is_Some (users (db w) !! User.id user) →
   ∃ h,
     (post_hazards now req w).1 = Response 200 (Json_hazard (Some h)) ∧
     in_sync (db (post_hazards now req w).2) (new_hazard_update h prev)) ∧
  (∀ k r,
     User.role user = "admin" →
     rowid_of_text (params_id req) = Some k →
     hazards (db w) !! k = Some r →
     ∃ h,
       (patch_hazards req w).1 = Response 200 (Json_hazard (Some h)) ∧
       in_sync (db (patch_hazards req w).2) (status_update h prev)).
Proof.
  intros Hs Hsync. split.
  - intros Hu. rewrite (post_hazards_run _ _ _ _ Hs Hu); simpl.
    eexists; split; [reflexivity|].
    intros e [->|He]%elem_of_cons; simpl.
    + by rewrite lookup_insert_eq.
    + rewrite lookup_insert_ne; [by apply Hsync|].
      intros Heq. specialize (Hsync e He). rewrite <- Heq in Hsync.
      by rewrite next_rowid_fresh in Hsync.
  - intros k r Ha Hk Hr. rewrite (patch_hazards_run _ _ _ _ _ Hs Ha Hk Hr); simpl.
    eexists; split; [reflexivity|].
    intros e (e0 & -> & He0)%list_elem_of_fmap. simpl.
    case_decide as Hid; simpl.
    + by rewrite lookup_insert_eq.
    + rewrite lookup_insert_ne; [by apply Hsync|]. congruence.
Qed.

(** X21. The record a creation or a status update returns and broadcasts
    has no [reporter], so the entry a client takes from the message reads
    "Reported by Me" on its card, for every viewer: the new entry at the
    head of the list, and every entry a status update replaces. *)
Theorem broadcast_entry_reads_me now req user w prev :
  session req = Some user →
  (is_Some (users (db w) !! User.id user) →
   ∃ h,
     (post_hazards now req w).1 = Response 200 (Json_hazard (Some h)) ∧
     ∃ tail, new_hazard_update h prev = h :: tail ∧ reported_by h = "Me") ∧
  (∀ k r,
     User.role user = "admin" →
     rowid_of_text (params_id req) = Some k →
     hazards (db w) !! k = Some r →
     ∃ h,
       (patch_hazards req w).1 = Response 200 (Json_hazard (Some h)) ∧
       ∀ e, e ∈ status_update h prev → Hazard.id e = k → reported_by e = "Me").
Proof.
  intros Hs. split.
  - intros Hu. rewrite (post_hazards_run _ _ _ _ Hs Hu); simpl.
    eexists; split; [reflexivity|]. by exists prev.
  - intros k r Ha Hk Hr. rewrite (patch_hazards_run _ _ _ _ _ Hs Ha Hk Hr); simpl.
    eexists; split; [reflexivity|].
    intros e (e0 & -> & He0)%list_elem_of_fmap. simpl.
    case_decide as Hid; simpl; [done|]. congruence.
Qed.

(** X22. The stat cards: the counts of open, in progress and closed
    reports never exceed the total, and add up to it exactly when every
    listed report has one of the three statuses. *)
Theorem stat_cards_add_up (hazards : list Hazard.t) :
  (count_status "open" hazards + count_status "in progress" hazards
   + count_status "closed" hazards ≤ length hazards)%nat ∧
  ((count_status "open" hazards + count_status "in progress" hazards
    + count_status "closed" hazards = length hazards)%nat ↔
   Forall (λ h, ∃ s, Hazards.status (Hazard.row h) = Some s ∧ s ∈ HazardStatus)
          hazards).
Proof.
  unfold count_status.
  induction hazards as [|h l [IHle IHeq]]; simpl.
  - split; [lia|]. split; [by constructor|done].
  - rewrite !filter_cons, Forall_cons.
    destruct (decide (Hazards.status (Hazard.row h) = Some "open")) as [Ho|Ho];
      destruct (decide (Hazards.status (Hazard.row h) = Some "in progress")) as [Hp|Hp];
      destruct (decide (Hazards.status (Hazard.row h) = Some "closed")) as [Hc|Hc];
      simpl; try congruence.
    + split; [lia|]. split.
      * intros Hsum. split; [|apply IHeq; lia].
        eexists; split; [exact Ho|]. by repeat constructor.
      * intros [_ Hall%IHeq]. lia.
    + split; [lia|]. split.
      * intros Hsum. split; [|apply IHeq; lia].
        eexists; split; [exact Hp|]. by repeat constructor.
      * intros [_ Hall%IHeq]. lia.
    + split; [lia|]. split.
      * intros Hsum. split; [|apply IHeq; lia].
        eexists; split; [exact Hc|]. by repeat constructor.
      * intros [_ Hall%IHeq]. lia.
    + split; [lia|]. split; [lia|].
      intros [(s & Hs & Hin) _]. unfold HazardStatus in Hin.
      repeat (apply elem_of_cons in Hin as [->|Hin]; [done|]).
      by apply elem_of_nil in Hin.
Qed.

End Server.

(** ** The properties on the concrete deployment *)

Lemma update_status_non_admin_forbidden_witness :
  session session_of_token (by_alice dispatch "1") = Some alice ∧
  User.role alice ≠ "admin" ∧
  (patch_hazards session_of_token decimal_rowid (by_alice dispatch "1") busy_server).1
    = Response 403 (Json_error "Forbidden") ∧
  (patch_hazards session_of_token decimal_rowid (by_alice dispatch "1") busy_server).2
    = busy_server.
Proof.
  split; [reflexivity|]. split; [discriminate|].
  apply (update_status_non_admin_forbidden session_of_token decimal_rowid
           (by_alice dispatch "1") alice busy_server); [reflexivity|discriminate].
Defined.

Lemma update_status_admin_overwrites_witness :
  session session_of_token (by_admin dispatch "2") = Some admin_user ∧
  User.role admin_user = "admin" ∧
  decimal_rowid "2" = Some 2 ∧
  hazards (db busy_server) !! 2 = Some cable_row ∧
  dispatch !! "status" = Some (JString "in progress") ∧
  "in progress" ∈ HazardStatus ∧
  ∃ h,
    (patch_hazards session_of_token decimal_rowid (by_admin dispatch "2") busy_server).1
      = Response 200 (Json_hazard (Some h)) ∧
    Hazard.id h = 2 ∧
    Hazards.status (Hazard.row h) = Some "in progress" ∧
    Hazards.remarks (Hazard.row h) = bind_text (dispatch !! "remarks") ∧
    hazards (db (patch_hazards session_of_token decimal_rowid
                   (by_admin dispatch "2") busy_server).2) !! 2
      = Some (Hazard.row h).
Proof.
  assert (Hin : "in progress" ∈ HazardStatus) by (right; left).
  repeat (split; [first [reflexivity | exact Hin]|]).
  apply (update_status_admin_overwrites session_of_token decimal_rowid
           (by_admin dispatch "2") admin_user busy_server 2 cable_row "in progress");
    first [reflexivity | exact Hin].
Defined.

(** C3 fails as stated: an administrator's update of report 99, which the
    store does not hold, is answered 200, not 404. *)
Lemma update_status_missing_report_is_200 :
  session session_of_token (by_admin dispatch "99") = Some admin_user ∧
  User.role admin_user = "admin" ∧
  decimal_rowid "99" = Some 99 ∧
  hazards (db busy_server) !! 99 = None ∧
  status_code
    (patch_hazards session_of_token decimal_rowid (by_admin dispatch "99") busy_server).1
    ≠ 404%nat.
Proof.
  repeat (split; [reflexivity|]). vm_compute. discriminate.
Qed.

Lemma update_status_missing_report_witness :
  session session_of_token (by_admin dispatch "99") = Some admin_user ∧
  User.role admin_user = "admin" ∧
  (∀ k, decimal_rowid "99" = Some k → hazards (db busy_server) !! k = None) ∧
  (patch_hazards session_of_token decimal_rowid (by_admin dispatch "99") busy_server).1
    = Response 200 (Json_hazard None) ∧
  db (patch_hazards session_of_token decimal_rowid (by_admin dispatch "99") busy_server).2
    = db busy_server.
Proof.
  assert (Hk : ∀ k, decimal_rowid "99" = Some k → hazards (db busy_server) !! k = None).
  { intros k [= <-]. reflexivity. }
  repeat (split; [first [reflexivity | exact Hk]|]).
  apply (update_status_missing_report session_of_token decimal_rowid
           (by_admin dispatch "99") admin_user busy_server);
    first [reflexivity | exact Hk].
Defined.

Lemma list_reports_employee_own_witness :
  session session_of_token (by_alice ∅ "") = Some alice ∧
  User.role alice ≠ "admin" ∧
  ∃ l,
    get_hazards session_of_token (by_alice ∅ "") busy_server
      = (Response 200 (Json_hazards l), busy_server) ∧
    ∀ h, h ∈ l →
         hazards (db busy_server) !! Hazard.id h = Some (Hazard.row h) ∧
         Hazards.userId (Hazard.row h) = User.id alice.
Proof.
  split; [reflexivity|]. split; [discriminate|].
  apply (list_reports_employee_own session_of_token (by_alice ∅ "") alice busy_server);
    [reflexivity|discriminate].
Defined.

Lemma reported_db_owner_valid : owner_valid reported_db.
Proof.
  intros k r. unfold reported_db; simpl. rewrite lookup_insert. case_decide.
  - intros [= <-]. by eexists.
  - rewrite lookup_singleton. case_decide; [|done]. intros [= <-]. by eexists.
Defined.

Lemma list_reports_admin_all_witness :
  session session_of_token (by_admin ∅ "") = Some admin_user ∧
  User.role admin_user = "admin" ∧
  owner_valid (db busy_server) ∧
  ∃ l,
    get_hazards session_of_token (by_admin ∅ "") busy_server
      = (Response 200 (Json_hazards l), busy_server) ∧
    (∀ k r, hazards (db busy_server) !! k = Some r →
            ∃ u, users (db busy_server) !! Hazards.userId r = Some u ∧
                 Hazard.mk k r (Some (Users.username u)) ∈ l) ∧
    (∀ h, h ∈ l →
          hazards (db busy_server) !! Hazard.id h = Some (Hazard.row h) ∧
          ∃ u, users (db busy_server) !! Hazards.userId (Hazard.row h) = Some u ∧
               Hazard.reporter h = Some (Users.username u)) ∧
    length l = size (hazards (db busy_server)) ∧
    StronglySorted newest_first l.
Proof.
  split; [reflexivity|]. split; [reflexivity|].
  split; [exact reported_db_owner_valid|].
  apply (list_reports_admin_all session_of_token (by_admin ∅ "") admin_user busy_server);
    [reflexivity|reflexivity|exact reported_db_owner_valid].
Defined.

Lemma alice_registered : is_Some (users (db busy_server) !! User.id alice).
Proof. eexists. reflexivity. Defined.

Lemma admin_registered : is_Some (users (db busy_server) !! User.id admin_user).
Proof. eexists. reflexivity. Defined.

(** C6 fails as stated: a submission with empty type, location and
    description and an unknown risk level is not answered 400, and it is
    stored. *)
Lemma create_report_blank_accepted :
  session session_of_token (by_alice blank "") = Some alice ∧
  is_Some (users (db busy_server) !! User.id alice) ∧
  valid_submission blank = false ∧
  status_code
    (post_hazards session_of_token decimal_rowid "2026-01-03 09:00:00"
       (by_alice blank "") busy_server).1 ≠ 400%nat ∧
  hazards (db busy_server) !! 3 = None ∧
  hazards (db (post_hazards session_of_token decimal_rowid "2026-01-03 09:00:00"
                 (by_alice blank "") busy_server).2) !! 3
    = Some (Hazards.mk 2 (Some "") (Some "") (Some "extreme") (Some "") None
                       (Some "open") None "2026-01-03 09:00:00").
Proof.
  split; [reflexivity|]. split; [exact alice_registered|]. split; [reflexivity|].
  split; [vm_compute; discriminate|]. split; reflexivity.
Qed.

Lemma create_report_persists_any_witness :
  session session_of_token (by_alice blank_with_image "") = Some alice ∧
  is_Some (users (db busy_server) !! User.id alice) ∧
  valid_submission blank_with_image = false ∧
  ∃ h,
    (post_hazards session_of_token decimal_rowid "2026-01-03 09:00:00"
       (by_alice blank_with_image "") busy_server).1
      = Response 200 (Json_hazard (Some h)) ∧
    hazards (db busy_server) !! Hazard.id h = None ∧
    hazards (db (post_hazards session_of_token decimal_rowid "2026-01-03 09:00:00"
                   (by_alice blank_with_image "") busy_server).2)
      = <[Hazard.id h := Hazard.row h]> (hazards (db busy_server)) ∧
    Hazards.type (Hazard.row h) = bind_text (blank_with_image !! "type") ∧
    Hazards.location (Hazard.row h) = bind_text (blank_with_image !! "location") ∧
    Hazards.riskLevel (Hazard.row h) = bind_text (blank_with_image !! "riskLevel") ∧
    Hazards.description (Hazard.row h)
      = bind_text (blank_with_image !! "description") ∧
    Hazards.imageUrl (Hazard.row h) = bind_text (blank_with_image !! "imageUrl") ∧
    Hazards.userId (Hazard.row h) = User.id alice ∧
    Hazards.status (Hazard.row h) = Some "open" ∧
    Hazards.remarks (Hazard.row h) = None ∧
    Hazards.createdAt (Hazard.row h) = "2026-01-03 09:00:00" ∧
    Hazard.reporter h = None ∧
    (∀ field s, blank_with_image !! field = Some (JString s) →
                bind_text (blank_with_image !! field) = Some s) ∧
    (∀ field, blank_with_image !! field = None ∨
              blank_with_image !! field = Some JNull →
              bind_text (blank_with_image !! field) = None).
Proof.
  split; [reflexivity|]. split; [exact alice_registered|]. split; [reflexivity|].
  apply (create_report_persists_any session_of_token decimal_rowid
           "2026-01-03 09:00:00" (by_alice blank_with_image "") alice busy_server);
    [reflexivity|exact alice_registered].
Defined.

(** The row that submission leaves in the store, column by column. *)
Example create_report_blank_with_image_row :
  hazards (db (post_hazards session_of_token decimal_rowid "2026-01-03 09:00:00"
                 (by_alice blank_with_image "") busy_server).2) !! 3
  = Some (Hazards.mk 2 (Some "") (Some "") (Some "extreme") None
                     (Some "data:image/png;base64,iVBORw0KGgo=")
                     (Some "open") None "2026-01-03 09:00:00").
Proof. reflexivity. Qed.

Lemma create_report_open_no_remarks_witness :
  session session_of_token (by_alice spill "") = Some alice ∧
  is_Some (users (db busy_server) !! User.id alice) ∧
  valid_submission spill = true ∧
  ∃ h,
    (post_hazards session_of_token decimal_rowid "2026-01-03 09:00:00"
       (by_alice spill "") busy_server).1 = Response 200 (Json_hazard (Some h)) ∧
    Hazards.status (Hazard.row h) = Some "open" ∧
    Hazards.remarks (Hazard.row h) = None.
Proof.
  split; [reflexivity|]. split; [exact alice_registered|]. split; [reflexivity|].
  apply (create_report_open_no_remarks session_of_token decimal_rowid
           "2026-01-03 09:00:00" (by_alice spill "") alice busy_server);
    [reflexivity|exact alice_registered|reflexivity].
Defined.

(** C8 fails as stated: after [archiving_run] the store holds a report whose
    status is none of open, in progress and closed. *)
Lemma status_leaves_enum :
  (Hazards.status <$>
     (hazards (db (run session_of_token decimal_rowid (initial "$2a$10$s") archiving_run))
        !! 1))
    = Some (Some "archived") ∧
  ("archived" ∉ HazardStatus) ∧
  ¬ status_in_enum
      (db (run session_of_token decimal_rowid (initial "$2a$10$s") archiving_run)).
Proof.
  assert (Hout : "archived" ∉ HazardStatus).
  { unfold HazardStatus. intros H. by repeat (apply elem_of_cons in H as [?|H]; [done|]);
      apply elem_of_nil in H. }
  split; [reflexivity|]. split; [exact Hout|].
  intros H.
  destruct (H 1 (set_status_remarks (Some "archived") None spill_row))
    as (s & [= <-] & Hs); [reflexivity|].
  by apply Hout.
Qed.

Lemma status_enum_along_runs_witness :
  Forall (asks_lifecycle_status) dispatching_run ∧
  status_in_enum
    (db (run session_of_token decimal_rowid (initial "$2a$10$s") dispatching_run)).
Proof.
  assert (Hin : "in progress" ∈ HazardStatus) by (right; left).
  assert (Hl : Forall asks_lifecycle_status dispatching_run).
  { repeat (apply Forall_cons; split;
            [first [exact I | by exists "in progress"]|]).
    apply Forall_nil_2. }
  split; [exact Hl|].
  apply (status_enum_along_runs session_of_token decimal_rowid "$2a$10$s"
           dispatching_run Hl).
Defined.

(** On [busy_server] a creation writes once, then sends once, to socket 7
    only: socket 8 is registered but closed, socket 9 is not registered. *)
Example create_report_log :
  log (post_hazards session_of_token decimal_rowid "2026-01-03 09:00:00"
         (by_alice spill "") busy_server).2
    = [DbWrite (db (post_hazards session_of_token decimal_rowid "2026-01-03 09:00:00"
                      (by_alice spill "") busy_server).2);
       Sent 7 (WSMessage.mk "NEW_HAZARD"
                 (Some (Hazard.mk 3
                          (Hazards.mk 2 (Some "Spill") (Some "Dock 3") (Some "medium")
                                      (Some "Wet floor") None (Some "open") None
                                      "2026-01-03 09:00:00")
                          None)))].
Proof. reflexivity. Qed.

Lemma broadcast_once_after_persist_witness :
  session session_of_token (by_admin dispatch "1") = Some admin_user ∧
  is_Some (users (db busy_server) !! User.id admin_user) ∧
  User.role admin_user = "admin" ∧
  decimal_rowid "1" = Some 1 ∧
  hazards (db busy_server) !! 1 = Some spill_row ∧
  (∃ h targets,
     let w' := (post_hazards session_of_token decimal_rowid "2026-01-03 09:00:00"
                  (by_admin dispatch "1") busy_server).2 in
     (post_hazards session_of_token decimal_rowid "2026-01-03 09:00:00"
        (by_admin dispatch "1") busy_server).1 = Response 200 (Json_hazard (Some h)) ∧
     hazards (db w') !! Hazard.id h = Some (Hazard.row h) ∧
     reached busy_server targets ∧
     log w' = log busy_server ++ DbWrite (db w') ::
                ((λ c, Sent c (WSMessage.mk "NEW_HAZARD" (Some h))) <$> targets)) ∧
  (∃ h targets,
     let w' := (patch_hazards session_of_token decimal_rowid
                  (by_admin dispatch "1") busy_server).2 in
     (patch_hazards session_of_token decimal_rowid (by_admin dispatch "1") busy_server).1
       = Response 200 (Json_hazard (Some h)) ∧
     hazards (db w') !! Hazard.id h = Some (Hazard.row h) ∧
     reached busy_server targets ∧
     log w' = log busy_server ++ DbWrite (db w') ::
                ((λ c, Sent c (WSMessage.mk "STATUS_UPDATE" (Some h))) <$> targets)).
Proof.
  pose proof (broadcast_once_after_persist session_of_token decimal_rowid
                "2026-01-03 09:00:00" (by_admin dispatch "1") admin_user busy_server
                eq_refl) as [Hpost Hpatch].
  split; [reflexivity|]. split; [exact admin_registered|].
  split; [reflexivity|]. split; [reflexivity|]. split; [reflexivity|].
  split; [exact (Hpost admin_registered)|].
  exact (Hpatch 1 spill_row eq_refl eq_refl eq_refl).
Defined.

Lemma create_report_owner_is_session_witness :
  session session_of_token
    (by_alice (<["userId" := JString "3"]> spill) "") = Some alice ∧
  is_Some (users (db busy_server) !! User.id alice) ∧
  (∃ h,
     (post_hazards session_of_token decimal_rowid "2026-01-03 09:00:00"
        (by_alice (<["userId" := JString "3"]> spill) "") busy_server).1
       = Response 200 (Json_hazard (Some h)) ∧
     hazards (db busy_server) !! Hazard.id h = None ∧
     hazards (db (post_hazards session_of_token decimal_rowid "2026-01-03 09:00:00"
                    (by_alice (<["userId" := JString "3"]> spill) "") busy_server).2)
       !! Hazard.id h = Some (Hazard.row h) ∧
     Hazards.userId (Hazard.row h) = User.id alice).
Proof.
  pose proof (create_report_owner_is_session session_of_token decimal_rowid
                "2026-01-03 09:00:00"
                (by_alice (<["userId" := JString "3"]> spill) "") alice busy_server
                eq_refl) as (_ & Hstored & _).
  split; [reflexivity|]. split; [exact alice_registered|].
  exact (Hstored alice_registered).
Defined.

(** ** The further properties on the concrete deployment *)

Lemma hazard_routes_require_session_witness :
  session session_of_token (Request (Some "stale-token") dispatch "1") = None ∧
  post_hazards session_of_token decimal_rowid "2026-01-03 09:00:00"
    (Request (Some "stale-token") dispatch "1") busy_server
  = (Response 401 (Json_error "Invalid token"), busy_server) ∧
  get_hazards session_of_token (Request (Some "stale-token") dispatch "1") busy_server
  = (Response 401 (Json_error "Invalid token"), busy_server) ∧
  patch_hazards session_of_token decimal_rowid
    (Request (Some "stale-token") dispatch "1") busy_server
  = (Response 401 (Json_error "Invalid token"), busy_server).
Proof.
  split; [reflexivity|].
  apply (hazard_routes_require_session session_of_token decimal_rowid
           "2026-01-03 09:00:00" (Request (Some "stale-token") dispatch "1")
           busy_server).
  reflexivity.
Defined.

Lemma busy_usernames k u :
  users (db busy_server) !! k = Some u →
  Users.username u = Some "admin" ∨ Users.username u = Some "alice" ∨
  Users.username u = Some "bob".
Proof.
  simpl. unfold seeded_db; simpl. rewrite !lookup_insert, lookup_singleton.
  repeat case_decide; intros [= <-]; simpl; auto.
Qed.

Lemma carol_is_new s :
  carol_credentials !! "username" = Some (JString s) →
  ∀ k u, users (db busy_server) !! k = Some u → Users.username u ≠ Some s.
Proof.
  intros [= <-] k u Hu. by destruct (busy_usernames k u Hu) as [->|[->| ->]].
Qed.

Lemma register_adds_user_witness :
  carol_credentials !! "password" = Some (JString "pw3") ∧
  (∀ s, carol_credentials !! "username" = Some (JString s) →
        ∀ k u, users (db busy_server) !! k = Some u → Users.username u ≠ Some s) ∧
  ∃ k,
    (post_register "$2a$10$c" (Request None carol_credentials "") busy_server).1
      = Response 200 Json_success ∧
    users (db busy_server) !! k = None ∧
    users (db (post_register "$2a$10$c" (Request None carol_credentials "")
                 busy_server).2)
      = <[k := Users.mk (bind_text (carol_credentials !! "username"))
                        (Some "$2a$10$c") (Some "user")]> (users (db busy_server)) ∧
    hazards (db (post_register "$2a$10$c" (Request None carol_credentials "")
                   busy_server).2) = hazards (db busy_server) ∧
    clients (post_register "$2a$10$c" (Request None carol_credentials "")
               busy_server).2 = clients busy_server ∧
    log (post_register "$2a$10$c" (Request None carol_credentials "") busy_server).2
      = log busy_server ++
        [DbWrite (db (post_register "$2a$10$c" (Request None carol_credentials "")
                        busy_server).2)].
Proof.
  split; [reflexivity|]. split; [exact carol_is_new|].
  apply (register_adds_user "$2a$10$c" (Request None carol_credentials "")
           busy_server "pw3"); [reflexivity|exact carol_is_new].
Defined.

Lemma register_rejected_witness :
  alice_credentials !! "username" = Some (JString "alice") ∧
  users (db busy_server) !! 2
    = Some (Users.mk (Some "alice") (Some "$2a$10$a") (Some "user")) ∧
  post_register "$2a$10$x" (Request None alice_credentials "") busy_server
  = (Response 400 (Json_error "Username already exists"), busy_server).
Proof.
  split; [reflexivity|]. split; [reflexivity|].
  apply (register_rejected "$2a$10$x" (Request None alice_credentials "") busy_server).
  left. exists "alice", 2, (Users.mk (Some "alice") (Some "$2a$10$a") (Some "user")).
  repeat split.
Defined.

Lemma username_stays_taken_witness :
  users (db busy_server) !! 2
    = Some (Users.mk (Some "alice") (Some "$2a$10$a") (Some "user")) ∧
  alice_credentials !! "username" = Some (JString "alice") ∧
  post_register "$2a$10$x" (Request None alice_credentials "")
    (run session_of_token decimal_rowid busy_server quiet_run)
  = (Response 400 (Json_error "Username already exists"),
     run session_of_token decimal_rowid busy_server quiet_run).
Proof.
  split; [reflexivity|]. split; [reflexivity|].
  apply (username_stays_taken session_of_token decimal_rowid quiet_run busy_server 2
           (Users.mk (Some "alice") (Some "$2a$10$a") (Some "user")) "alice");
    reflexivity.
Defined.

Lemma report_persists_witness :
  hazards (db busy_server) !! 1 = Some spill_row ∧
  ∃ r', hazards (db (run session_of_token decimal_rowid busy_server quiet_run)) !! 1
          = Some r' ∧ same_report spill_row r'.
Proof.
  split; [reflexivity|].
  apply (report_persists session_of_token decimal_rowid quiet_run busy_server 1
           spill_row).
  reflexivity.
Defined.

Lemma report_changes_only_by_admin_witness :
  hazards (db busy_server) !! 1 = Some spill_row ∧
  hazards (db (step session_of_token decimal_rowid busy_server
                 (PatchHazards (by_admin dispatch "1")))) !! 1
    = Some (set_status_remarks (Some "in progress") (Some "Cleanup crew dispatched")
                               spill_row) ∧
  set_status_remarks (Some "in progress") (Some "Cleanup crew dispatched") spill_row
    ≠ spill_row ∧
  ∃ req user,
    PatchHazards (by_admin dispatch "1") = PatchHazards req ∧
    session session_of_token req = Some user ∧ User.role user = "admin" ∧
    decimal_rowid (params_id req) = Some 1 ∧
    Hazards.status (set_status_remarks (Some "in progress")
                      (Some "Cleanup crew dispatched") spill_row)
      = bind_text (body req !! "status") ∧
    Hazards.remarks (set_status_remarks (Some "in progress")
                       (Some "Cleanup crew dispatched") spill_row)
      = bind_text (body req !! "remarks").
Proof.
  split; [reflexivity|]. split; [reflexivity|]. split; [discriminate|].
  apply (report_changes_only_by_admin session_of_token decimal_rowid busy_server
           (PatchHazards (by_admin dispatch "1")) 1 spill_row);
    [reflexivity|reflexivity|discriminate].
Defined.

Lemma quiet_run_no_connection : Connection 7 ∉ quiet_run.
Proof.
  unfold quiet_run. intros H.
  repeat (apply elem_of_cons in H as [?|H]; [done|]). by apply elem_of_nil in H.
Qed.

Lemma closed_socket_receives_nothing_witness :
  (Connection 7 ∉ quiet_run) ∧
  log (run session_of_token decimal_rowid (on_close 7 busy_server) quiet_run)
    = log busy_server ++
      log (run session_of_token decimal_rowid (on_close 7 busy_server) quiet_run) ∧
  Sent 7 (WSMessage.mk "NEW_HAZARD" None)
    ∉ log (run session_of_token decimal_rowid (on_close 7 busy_server) quiet_run).
Proof.
  split; [exact quiet_run_no_connection|]. split; [reflexivity|].
  apply (closed_socket_receives_nothing session_of_token decimal_rowid quiet_run
           busy_server 7); [exact quiet_run_no_connection|reflexivity].
Defined.

Lemma update_last_writer_wins_witness :
  is_admin_request session_of_token (by_admin dispatch "1") = true ∧
  params_id (by_admin archive "1") = params_id (by_admin dispatch "1") ∧
  db (patch_hazards session_of_token decimal_rowid (by_admin dispatch "1")
        (patch_hazards session_of_token decimal_rowid (by_admin archive "1")
           busy_server).2).2
    = db (patch_hazards session_of_token decimal_rowid (by_admin dispatch "1")
            busy_server).2 ∧
  (patch_hazards session_of_token decimal_rowid (by_admin dispatch "1")
     (patch_hazards session_of_token decimal_rowid (by_admin archive "1")
        busy_server).2).1
    = (patch_hazards session_of_token decimal_rowid (by_admin dispatch "1")
         busy_server).1.
Proof.
  split; [reflexivity|]. split; [reflexivity|].
  apply (update_last_writer_wins session_of_token decimal_rowid
           (by_admin archive "1") (by_admin dispatch "1") busy_server);
    reflexivity.
Defined.

Lemma updates_of_different_reports_commute_witness :
  decimal_rowid (params_id (by_admin archive "1"))
    ≠ decimal_rowid (params_id (by_admin dispatch "2")) ∧
  db (patch_hazards session_of_token decimal_rowid (by_admin dispatch "2")
        (patch_hazards session_of_token decimal_rowid (by_admin archive "1")
           busy_server).2).2
    = db (patch_hazards session_of_token decimal_rowid (by_admin archive "1")
            (patch_hazards session_of_token decimal_rowid (by_admin dispatch "2")
               busy_server).2).2.
Proof.
  split; [discriminate|].
  apply (updates_of_different_reports_commute session_of_token decimal_rowid
           (by_admin archive "1") (by_admin dispatch "2") busy_server).
  discriminate.
Defined.

Lemma list_reports_employee_exact_witness :
  session session_of_token (by_alice ∅ "") = Some alice ∧
  User.role alice ≠ "admin" ∧
  ∃ l,
    get_hazards session_of_token (by_alice ∅ "") busy_server
      = (Response 200 (Json_hazards l), busy_server) ∧
    (∀ h, h ∈ l ↔
          Hazard.reporter h = None ∧
          hazards (db busy_server) !! Hazard.id h = Some (Hazard.row h) ∧
          Hazards.userId (Hazard.row h) = User.id alice) ∧
    NoDup l ∧
    StronglySorted newest_first l.
Proof.
  split; [reflexivity|]. split; [discriminate|].
  apply (list_reports_employee_exact session_of_token (by_alice ∅ "") alice
           busy_server); [reflexivity|discriminate].
Defined.

Lemma created_report_is_listed_witness :
  session session_of_token (by_alice spill "") = Some alice ∧
  is_Some (users (db busy_server) !! User.id alice) ∧
  session session_of_token (by_alice ∅ "") = Some alice ∧
  ∃ h l,
    (post_hazards session_of_token decimal_rowid "2026-01-03 09:00:00"
       (by_alice spill "") busy_server).1 = Response 200 (Json_hazard (Some h)) ∧
    (get_hazards session_of_token (by_alice ∅ "")
       (post_hazards session_of_token decimal_rowid "2026-01-03 09:00:00"
          (by_alice spill "") busy_server).2).1 = Response 200 (Json_hazards l) ∧
    (h ∈ l ↔ User.id alice = User.id alice).
Proof.
  split; [reflexivity|]. split; [exact alice_registered|]. split; [reflexivity|].
  apply (created_report_is_listed session_of_token decimal_rowid
           "2026-01-03 09:00:00" (by_alice spill "") alice busy_server
           (by_alice ∅ "") alice); [reflexivity|exact alice_registered|reflexivity].
Defined.

Lemma seed_admin_once_witness :
  (∃ k u, users seeded_db !! k = Some u ∧ Users.username u = Some "admin") ∧
  seed_admin "$2a$10$t" seeded_db = seeded_db.
Proof.
  assert (H : ∃ k u, users seeded_db !! k = Some u ∧ Users.username u = Some "admin").
  { exists 1, (Users.mk (Some "admin") (Some "$2a$10$s") (Some "admin")).
    split; reflexivity. }
  split; [exact H|].
  exact (proj1 (seed_admin_once "$2a$10$t" "$2a$10$t" seeded_db) H).
Defined.

Lemma login_cookie_is_earned_witness :
  auth_cookie (post_login password_matches token_of_claims
                 (Request None alice_login "") seeded_db) = Cookie_set "alice-token" ∧
  ∃ k u s p h,
    alice_login !! "username" = Some (JString s) ∧
    alice_login !! "password" = Some (JString p) ∧
    users seeded_db !! k = Some u ∧ Users.username u = Some s ∧
    Users.password u = Some h ∧ password_matches p h = true ∧
    "alice-token" = token_of_claims (Claims.mk k (Some s) (Users.role u)) ∧
    post_login password_matches token_of_claims (Request None alice_login "") seeded_db
    = Auth_response 200 (Cookie_set "alice-token")
                    (Auth_user (Claims.mk k (Some s) (Users.role u))).
Proof.
  split; [reflexivity|].
  apply (login_cookie_is_earned password_matches token_of_claims
           (Request None alice_login "") seeded_db "alice-token").
  reflexivity.
Defined.

Lemma seeded_usernames_unique : usernames_unique seeded_db.
Proof.
  intros k1 k2 u1 u2 s. unfold seeded_db; simpl.
  rewrite !lookup_insert, !lookup_singleton.
  repeat case_decide; subst; try done; intros [= <-] [= <-]; simpl; congruence.
Qed.

Lemma login_rejections_alike_witness :
  alice_mistyped !! "username" = Some (JString "alice") ∧
  alice_mistyped !! "password" = Some (JString "pw2") ∧
  usernames_unique seeded_db ∧
  users seeded_db !! 2 = Some (Users.mk (Some "alice") (Some "$2a$10$a") (Some "user")) ∧
  password_matches "pw2" "$2a$10$a" = false ∧
  post_login password_matches token_of_claims (Request None alice_mistyped "") seeded_db
  = Auth_response 401 Cookie_kept (Auth_error "Invalid credentials").
Proof.
  split; [reflexivity|]. split; [reflexivity|].
  split; [exact seeded_usernames_unique|]. split; [reflexivity|].
  split; [reflexivity|].
  apply (login_rejections_alike password_matches token_of_claims
           (Request None alice_mistyped "") seeded_db).
  right.
  exists "alice", "pw2", 2,
    (Users.mk (Some "alice") (Some "$2a$10$a") (Some "user")), "$2a$10$a".
  repeat (split; [first [reflexivity | exact seeded_usernames_unique]|]).
  reflexivity.
Defined.

Lemma alice_sends_no_password p : alice_no_password !! "password" ≠ Some (JString p).
Proof. done. Qed.

Lemma login_without_password_witness :
  (∀ p, alice_no_password !! "password" ≠ Some (JString p)) ∧
  alice_no_password !! "username" = Some (JString "alice") ∧
  users seeded_db !! 2 = Some (Users.mk (Some "alice") (Some "$2a$10$a") (Some "user")) ∧
  post_login password_matches token_of_claims (Request None alice_no_password "")
    seeded_db
  = Auth_response 500 Cookie_kept Auth_error_page.
Proof.
  split; [exact alice_sends_no_password|]. split; [reflexivity|].
  split; [reflexivity|].
  apply (login_without_password password_matches token_of_claims
           (Request None alice_no_password "") seeded_db alice_sends_no_password).
  exists "alice", 2, (Users.mk (Some "alice") (Some "$2a$10$a") (Some "user")).
  repeat split.
Defined.

Lemma verify_returns_signed_role c u :
  claims_of_token (token_of_claims c) = Some u →
  Claims.role c = Some (User.role u).
Proof.
  unfold token_of_claims. repeat case_decide; subst; by intros [= <-].
Qed.

Lemma registered_account_cannot_update_witness :
  (∀ c u, claims_of_token (token_of_claims c) = Some u →
          Claims.role c = Some (User.role u)) ∧
  carol_credentials !! "username" = Some (JString "carol") ∧
  carol_credentials !! "password" = Some (JString "pw3") ∧
  (∀ k u, users (db busy_server) !! k = Some u → Users.username u ≠ Some "carol") ∧
  password_matches "pw3" "$2a$10$c" = true ∧
  ∃ token,
    (post_register "$2a$10$c" (Request None carol_credentials "") busy_server).1
      = Response 200 Json_success ∧
    auth_cookie (post_login password_matches token_of_claims
                   (Request None carol_credentials "")
                   (db (post_register "$2a$10$c" (Request None carol_credentials "")
                          busy_server).2)) = Cookie_set token ∧
    ∀ req w', cookies_token req = Some token →
              status_code (patch_hazards claims_of_token decimal_rowid req w').1
                ≠ 200%nat ∧
              (patch_hazards claims_of_token decimal_rowid req w').2 = w'.
Proof.
  split; [exact verify_returns_signed_role|].
  split; [reflexivity|]. split; [reflexivity|].
  split; [exact (carol_is_new "carol" eq_refl)|]. split; [reflexivity|].
  apply (registered_account_cannot_update claims_of_token decimal_rowid
           password_matches token_of_claims "$2a$10$c"
           (Request None carol_credentials "") (Request None carol_credentials "")
           busy_server "carol" "pw3" "pw3");
    first [reflexivity | exact verify_returns_signed_role
          | exact (carol_is_new "carol" eq_refl)].
Defined.

Lemma loaded_list_in_sync : in_sync (db busy_server) loaded_list.
Proof.
  intros h Hh. unfold loaded_list in Hh.
  repeat (apply elem_of_cons in Hh as [->|Hh]; [reflexivity|]).
  by apply elem_of_nil in Hh.
Qed.

Lemma client_list_stays_in_sync_witness :
  session session_of_token (by_admin dispatch "1") = Some admin_user ∧
  in_sync (db busy_server) loaded_list ∧
  is_Some (users (db busy_server) !! User.id admin_user) ∧
  User.role admin_user = "admin" ∧
  decimal_rowid "1" = Some 1 ∧
  hazards (db busy_server) !! 1 = Some spill_row ∧
  (∃ h,
     (post_hazards session_of_token decimal_rowid "2026-01-03 09:00:00"
        (by_admin dispatch "1") busy_server).1 = Response 200 (Json_hazard (Some h)) ∧
     in_sync (db (post_hazards session_of_token decimal_rowid "2026-01-03 09:00:00"
                    (by_admin dispatch "1") busy_server).2)
             (new_hazard_update h loaded_list)) ∧
  (∃ h,
     (patch_hazards session_of_token decimal_rowid (by_admin dispatch "1")
        busy_server).1 = Response 200 (Json_hazard (Some h)) ∧
     in_sync (db (patch_hazards session_of_token decimal_rowid (by_admin dispatch "1")
                    busy_server).2)
             (status_update h loaded_list)).
Proof.
  pose proof (client_list_stays_in_sync session_of_token decimal_rowid
                "2026-01-03 09:00:00" (by_admin dispatch "1") admin_user busy_server
                loaded_list eq_refl loaded_list_in_sync) as [Hpost Hpatch].
  split; [reflexivity|]. split; [exact loaded_list_in_sync|].
  split; [exact admin_registered|].
  split; [reflexivity|]. split; [reflexivity|]. split; [reflexivity|].
  split; [exact (Hpost admin_registered)|].
  exact (Hpatch 1 spill_row eq_refl eq_refl eq_refl).
Defined.

Lemma broadcast_entry_reads_me_witness :
  session session_of_token (by_admin dispatch "1") = Some admin_user ∧
  is_Some (users (db busy_server) !! User.id admin_user) ∧
  User.role admin_user = "admin" ∧
  decimal_rowid "1" = Some 1 ∧
  hazards (db busy_server) !! 1 = Some spill_row ∧
  reported_by (Hazard.mk 1 spill_row (Some (Some "alice"))) = "alice" ∧
  (∃ h,
     (post_hazards session_of_token decimal_rowid "2026-01-03 09:00:00"
        (by_admin dispatch "1") busy_server).1 = Response 200 (Json_hazard (Some h)) ∧
     ∃ tail, new_hazard_update h loaded_list = h :: tail ∧ reported_by h = "Me") ∧
  (∃ h,
     (patch_hazards session_of_token decimal_rowid (by_admin dispatch "1")
        busy_server).1 = Response 200 (Json_hazard (Some h)) ∧
     ∀ e, e ∈ status_update h loaded_list → Hazard.id e = 1 → reported_by e = "Me").
Proof.
  pose proof (broadcast_entry_reads_me session_of_token decimal_rowid
                "2026-01-03 09:00:00" (by_admin dispatch "1") admin_user busy_server
                loaded_list eq_refl) as [Hpost Hpatch].
  split; [reflexivity|]. split; [exact admin_registered|].
  split; [reflexivity|]. split; [reflexivity|]. split; [reflexivity|].
  split; [reflexivity|].
  split; [exact (Hpost admin_registered)|].
  exact (Hpatch 1 spill_row eq_refl eq_refl eq_refl).
Defined.

Lemma admin_list_complete_along_runs_witness :
  session session_of_token (by_admin ∅ "") = Some admin_user ∧
  User.role admin_user = "admin" ∧
  owner_valid (db (run session_of_token decimal_rowid (initial "$2a$10$s")
                     dispatching_run)) ∧
  ∃ lst,
    get_hazards session_of_token (by_admin ∅ "")
      (run session_of_token decimal_rowid (initial "$2a$10$s") dispatching_run)
    = (Response 200 (Json_hazards lst),
       run session_of_token decimal_rowid (initial "$2a$10$s") dispatching_run) ∧
    length lst
    = size (hazards (db (run session_of_token decimal_rowid (initial "$2a$10$s")
                           dispatching_run))) ∧
    ∀ k r,
      hazards (db (run session_of_token decimal_rowid (initial "$2a$10$s")
                     dispatching_run)) !! k = Some r →
      ∃ u, users (db (run session_of_token decimal_rowid (initial "$2a$10$s")
                        dispatching_run)) !! Hazards.userId r = Some u ∧
           Hazard.mk k r (Some (Users.username u)) ∈ lst.
Proof.
  split; [reflexivity|]. split; [reflexivity|].
  apply (admin_list_complete_along_runs session_of_token decimal_rowid "$2a$10$s"
           dispatching_run (by_admin ∅ "") admin_user); reflexivity.
Defined.
